(** * Topology map UI: services, dependencies and the graph view

    A shallow embedding of the topology front end of keep-ui:
    - [app/(keep)/topology/api.ts]: the typed wrappers around the API client
      and the [TopologyMap] component (state, effects and handlers);
    - [ui/services/service-modal.tsx]: the create / edit form of a service;
    - [ui/services/dependency-manager.tsx]: the dependency check-list.

    React state is modelled by explicit state passing.  A handler or an
    effect of [TopologyMap] is a function from what it reads (props, state,
    refs) to the list of commands it issues, in program order; asynchronous
    handlers of the two dialogs run in a state-and-exception monad over the
    backend and a log of what the user can observe. *)

From stdpp Require Import base list strings gmap pretty.
From Stdlib Require Import ZArith.
From Stdlib Require QArith.

Open Scope string_scope.
Open Scope list_scope.

(* ================================================================== *)
(** * Data model *)
(* ================================================================== *)

(** [TopologyService.id].  The declaration ([model.ts]) is not part of the
    sources: [api.ts] takes it as a [number], [dependency-manager.tsx] as a
    [string].  Either way it is a JS primitive, compared with [===] and
    [Array.prototype.includes], that is by constructor and value. *)
Inductive ServiceId :=
| NumId (n : Z)
| StrId (s : string).

#[global] Instance ServiceId_eq_dec : EqDecision ServiceId.
Proof. solve_decision. Defined.

(** Template-literal conversion [`${serviceId}`]. *)
Definition template (i : ServiceId) : string :=
  match i with
  | NumId n => pretty n
  | StrId s => s
  end.

Module TopologyService.
Record t := mk {
  id : ServiceId;
  service : string;
  display_name : string;
  description : option string;
  team : option string;
  email : option string;
  slack : option string;
  environment : option string;
  is_manual : bool;
  is_editable : bool;
}.
End TopologyService.

Module TopologyServiceMinimal.
Record t := mk {
  id : ServiceId;
  service : string;
  name : string;
}.
End TopologyServiceMinimal.

Module TopologyApplication.
Record t := mk {
  id : string;
  name : string;
  services : list TopologyServiceMinimal.t;
}.
End TopologyApplication.

(** [Partial<TopologyService>] as the service form fills it: the seven keys
    of the form state.  The four optional texts are [undefined] when the
    edited service has none. *)
Module FormData.
Record t := mk {
  service : string;
  display_name : string;
  description : option string;
  team : option string;
  email : option string;
  slack : option string;
  environment : string;
}.

#[global] Instance eq_dec : EqDecision t.
Proof. solve_decision. Defined.
End FormData.

(** Node positions are only stored and copied by this code, never computed
    with. *)
Record XYPosition := { x : Z; y : Z }.

Inductive NodeData :=
| ServiceData (s : TopologyService.t)
| ApplicationData (a : TopologyApplication.t).

(** [TopologyNode]: a React Flow node.  [hidden] and [selected] are the
    optional flags of the library's [Node] type. *)
Module Node.
Record t := mk {
  id : string;
  type : string;
  position : XYPosition;
  data : NodeData;
  hidden : option bool;
  selected : option bool;
}.

(** [{ ...n, hidden: h }] *)
Definition with_hidden (h : bool) (n : t) : t :=
  mk (id n) (type n) (position n) (data n) (Some h) (selected n).

(** [{ ...n, selected: s }] *)
Definition with_selected (s : bool) (n : t) : t :=
  mk (id n) (type n) (position n) (data n) (hidden n) (Some s).

(** [{ ...n, position: p }] *)
Definition with_position (p : XYPosition) (n : t) : t :=
  mk (id n) (type n) p (data n) (hidden n) (selected n).

(** What the renderer does with the flag: a node is left out when
    [hidden] is [true]; [undefined] and [false] both show it. *)
Definition is_hidden (n : t) : bool :=
  match hidden n with Some true => true | _ => false end.

Definition is_selected (n : t) : bool :=
  match selected n with Some true => true | _ => false end.
End Node.

Module Edge.
Record t := mk {
  id : string;
  source : string;
  target : string;
  label : option string;
  hidden : option bool;
}.

(** [{ ...e, hidden: h }] *)
Definition with_hidden (h : bool) (e : t) : t :=
  mk (id e) (source e) (target e) (label e) (Some h).

Definition is_hidden (e : t) : bool :=
  match hidden e with Some true => true | _ => false end.
End Edge.

(** [FitViewOptions] of React Flow; a missing key is [None]. *)
Record FitViewOptions := {
  padding : option QArith_base.Q;
  minZoom : option QArith_base.Q;
  maxZoom : option QArith_base.Q;
  fit_nodes : option (list Node.t);
  duration : option Z;
}.

(** The part of [ReactFlowInstance] the component uses: the store of
    rendered nodes behind [getNode]. *)
Record ReactFlowInstance := { rendered : list Node.t }.

Definition getNode (instance : ReactFlowInstance) (id : string)
  : option Node.t :=
  find (λ n, bool_decide (Node.id n = id)) (rendered instance).

(* ================================================================== *)
(** * React state *)
(* ================================================================== *)

(** The argument of a [useState] setter: a value or an updater function. *)
Inductive SetStateAction (A : Type) :=
| Value (v : A)
| Updater (f : A → A).
Arguments Value {A} v.
Arguments Updater {A} f.

Definition apply_action {A} (a : SetStateAction A) (prev : A) : A :=
  match a with
  | Value v => v
  | Updater f => f prev
  end.

(** A callback prop as the component that calls it sees it: the call
    returns, or it throws.  What else the parent does in it is not the
    caller's. *)
Inductive Callback :=
| Returns
| Throws (error : string).

(* ================================================================== *)
(** * [TopologyMap] (api.ts) *)
(* ================================================================== *)

Module TopologyMap.

(** What an effect or a handler of the component can do.  [FitView] is
    the call [reactFlowInstanceRef.current?.fitView(opts)]; [SetTimeout]
    hands a callback to the timer queue. *)
#[warnings="-register-all"]
Inductive Cmd :=
| SetNodes (a : SetStateAction (list Node.t))
| SetEdges (a : SetStateAction (list Edge.t))
| SetSelectedObjectId (v : option string)
| SetInitiallyFitted (b : bool)
| SetPreviousNodesIds (ids : gset string)
| SetSelectedService (s : option TopologyService.t)
| SetIsServiceModalOpen (b : bool)
| SetIsDependencyModalOpen (b : bool)
| FitView (opts : FitViewOptions)
| SetTimeout (callback : list Cmd) (delay : Z)
| ShowErrorToast (message : string).

(** The component's state and refs, the timer queue, and the calls
    [fitView] has received, each with the node store it ran against. *)
Record State := mkState {
  nodes : list Node.t;
  edges : list Edge.t;
  selectedObjectId : option string;
  initiallyFitted : bool;
  previousNodesIds : gset string;
  selectedService : option TopologyService.t;
  isServiceModalOpen : bool;
  isDependencyModalOpen : bool;
  instance : option ReactFlowInstance;
  timers : list (list Cmd);
  fits : list (FitViewOptions * list Node.t);
  toasts : list string;
}.

Definition applicationMap (applications : list TopologyApplication.t)
  : gmap string TopologyApplication.t :=
  foldl (λ map app, <[TopologyApplication.id app := app]> map) ∅ applications.

Definition defaultFitViewOptions : FitViewOptions :=
  {| padding := Some (QArith_base.Qmake 1 10);
     minZoom := Some (QArith_base.Qmake 3 10);
     maxZoom := None; fit_nodes := None; duration := None |}.

Definition highlightNodes (nodeIds : list string) : list Cmd :=
  [SetNodes (Updater (λ nds,
     (λ n, Node.with_selected (bool_decide (Node.id n ∈ nodeIds)) n) <$> nds))].

Definition fitViewToServices (instance : option ReactFlowInstance)
    (serviceIds : list string) : list Cmd :=
  let nodesToFit := omap (λ id, instance ≫= λ i, getNode i id) serviceIds in
  [SetTimeout
     [FitView {| padding := Some (QArith_base.Qmake 2 10);
                 fit_nodes := Some nodesToFit;
                 duration := Some 300%Z;
                 maxZoom := Some (QArith_base.Qmake 1 1);
                 minZoom := None |}]
     0].

Definition fallbackFitView (isVisible initiallyFitted : bool) : list Cmd :=
  if negb isVisible || initiallyFitted then []
  else [SetTimeout [FitView defaultFitViewOptions] 0; SetInitiallyFitted true].

(** The effect on [selectedObjectId] (api.ts, lines 298-324). *)
Definition selectionEffect (isVisible : bool)
    (selectedObjectId : option string)
    (instance : option ReactFlowInstance)
    (applicationMap : gmap string TopologyApplication.t) : list Cmd :=
  match selectedObjectId with
  | None => []
  | Some selectedObjectId =>
    if negb isVisible || bool_decide (selectedObjectId = "") then []
    else
      match instance ≫= λ i, getNode i selectedObjectId with
      | Some node =>
          highlightNodes [selectedObjectId]
          ++ fitViewToServices instance [selectedObjectId]
          ++ [SetSelectedObjectId None]
      | None =>
          match applicationMap !! selectedObjectId with
          | None => []
          | Some application =>
              let serviceIds :=
                TopologyServiceMinimal.service
                  <$> TopologyApplication.services application in
              highlightNodes serviceIds
              ++ fitViewToServices instance serviceIds
              ++ [SetSelectedObjectId None]
          end
      end
  end.

(** [new Set(xs)] where the order of [values()] is observed: a [Set]
    iterates in insertion order and keeps the first of equal elements. *)
Definition new_Set (xs : list string) : list string :=
  foldl (λ set x, if bool_decide (x ∈ set) then set else set ++ [x])
    [] xs.

(** [selectedServiceNodesIds] of [watchSelectedApplications]. *)
Definition selectedServiceNodesIds
    (applications : list TopologyApplication.t)
    (selectedApplicationIds : list string) : list string :=
  new_Set
    (applications ≫= λ app,
       if bool_decide (TopologyApplication.id app ∈ selectedApplicationIds)
       then TopologyServiceMinimal.service
              <$> TopologyApplication.services app
       else []).

Definition watchSelectedApplications
    (applications : list TopologyApplication.t)
    (selectedApplicationIds : list string)
    (instance : option ReactFlowInstance) : list Cmd :=
  if bool_decide (length selectedApplicationIds = 0) then
    [SetNodes (Updater (λ prev, Node.with_hidden false <$> prev));
     SetEdges (Updater (λ prev, Edge.with_hidden false <$> prev))]
  else
    let ids := selectedServiceNodesIds applications selectedApplicationIds in
    let nodesToFit := omap (λ id, instance ≫= λ i, getNode i id) ids in
    [SetNodes (Updater (λ prev,
       (λ n,
          let isSelectedService := bool_decide (Node.id n ∈ ids) in
          Node.with_hidden
            (bool_decide (Node.type n = "service") && negb isSelectedService) n)
       <$> prev));
     SetEdges (Updater (λ prev,
       (λ e,
          let isSelectedService :=
            bool_decide (Edge.source e ∈ ids)
            && bool_decide (Edge.target e ∈ ids) in
          Edge.with_hidden (negb isSelectedService) e)
       <$> prev));
     FitView {| padding := Some (QArith_base.Qmake 10 1);
                minZoom := Some (QArith_base.Qmake 5 10);
                fit_nodes := Some nodesToFit;
                duration := Some 300%Z;
                maxZoom := None |}].

Definition handleCreateService : list Cmd :=
  [SetSelectedService None; SetIsServiceModalOpen true].

Definition handleEditService (service : TopologyService.t) : list Cmd :=
  if negb (TopologyService.is_editable service) then
    [ShowErrorToast
       "This service cannot be edited as it is managed by a provider"]
  else
    [SetSelectedService (Some service); SetIsServiceModalOpen true].

Definition handleManageDependencies (service : TopologyService.t)
  : list Cmd :=
  [SetSelectedService (Some service); SetIsDependencyModalOpen true].

(** Both success handlers consist of the call [refetchTopology()].  No
    binding of that name exists in the file, by declaration, parameter or
    import, so evaluating the reference throws. *)
Definition handleServiceModalSuccess : Callback :=
  Throws "ReferenceError: refetchTopology is not defined".

Definition handleDependencyModalSuccess : Callback :=
  Throws "ReferenceError: refetchTopology is not defined".

(** The value of a pick in the search box,
    [TopologyServiceMinimal | TopologyApplicationMinimal]; the handler
    tells them apart with ["service" in value]. *)
Inductive SearchValue :=
| ServiceValue (value : TopologyServiceMinimal.t)
| ApplicationValue (id name : string).

Definition handleSelectFromSearch
    (applicationMap : gmap string TopologyApplication.t)
    (value : SearchValue) : list Cmd :=
  match value with
  | ServiceValue value =>
      [SetSelectedObjectId (Some (TopologyServiceMinimal.service value))]
  | ApplicationValue id _ =>
      match applicationMap !! id with
      | Some application =>
          [SetSelectedObjectId (Some (TopologyApplication.id application))]
      | None => []
      end
  end.

(** [onNodeClick] of the [ReactFlow] element.  [node.data.is_editable] is
    [undefined], hence falsy, on the data of an application node. *)
Definition onNodeClick (node : Node.t) : list Cmd :=
  match Node.data node with
  | ServiceData service =>
      if TopologyService.is_editable service
      then handleEditService service
      else []
  | ApplicationData _ => []
  end.

(** The [onClose] prop [TopologyMap] gives to [ServiceModal]. *)
Definition closeServiceModal : list Cmd := [SetIsServiceModalOpen false].

(** The reconciling effect.  Its two collaborators live in files that are
    not part of the sources and are taken as parameters: the graph
    builder, whose two [Map]s are kept as insertion-ordered key/value
    lists, and the layout adapter. *)
Section Reconciler.
Context {Incident : Type}.
Variable getNodesAndEdgesFromTopologyData :
  list TopologyService.t → gmap string TopologyApplication.t →
  list Incident →
  list (string * Node.t) * list (string * Edge.t).
Variable getLayoutedElements :
  list Node.t → list Edge.t → list Node.t * list Edge.t.

(** [areSetsEqual] of [utils/helpers]: equality of two [Set]s. *)
Definition areSetsEqual (a b : gset string) : bool := bool_decide (a = b).

Definition createAndSetLayoutedNodesAndEdges
    (topologyData : option (list TopologyService.t))
    (applicationMap : gmap string TopologyApplication.t)
    (allIncidents : option (list Incident))
    (previousNodesIds : gset string) : list Cmd :=
  match topologyData with
  | None => []
  | Some topologyData =>
    let '(nodeMap, edgeMap) :=
      getNodesAndEdgesFromTopologyData
        topologyData applicationMap (default [] allIncidents) in
    let newNodes := nodeMap.*2 in
    let newEdges := edgeMap.*2 in
    (if bool_decide (0 < size previousNodesIds)
        && areSetsEqual previousNodesIds (list_to_set nodeMap.*1)
     then
       [SetEdges (Value newEdges);
        SetNodes (Updater (λ prevNodes,
          (λ n,
             match find (λ nn, bool_decide (Node.id nn = Node.id n))
                        newNodes with
             | Some newNode =>
                 (* Update node, but keep the position *)
                 Node.with_position (Node.position n) newNode
             | None => n
             end)
          <$> prevNodes))]
     else
       [SetPreviousNodesIds (list_to_set nodeMap.*1)])
    ++ (let layoutedElements := getLayoutedElements newNodes newEdges in
        [SetNodes (Value layoutedElements.1);
         SetEdges (Value layoutedElements.2)])
  end.
End Reconciler.

(** ** Running commands

    State setters queue their update; the queue is applied in order when
    the component renders next, so one update sees the result of the one
    before.  A ref is assigned at once.  [fitView] runs at once against
    the node store of the renderer, which still holds what was rendered
    last.  [SetTimeout] queues the callback. *)
Definition exec1 (st : State) (c : Cmd) : State :=
  match c with
  | SetNodes a =>
      mkState (apply_action a (nodes st)) (edges st) (selectedObjectId st)
        (initiallyFitted st) (previousNodesIds st) (selectedService st)
        (isServiceModalOpen st) (isDependencyModalOpen st) (instance st)
        (timers st) (fits st) (toasts st)
  | SetEdges a =>
      mkState (nodes st) (apply_action a (edges st)) (selectedObjectId st)
        (initiallyFitted st) (previousNodesIds st) (selectedService st)
        (isServiceModalOpen st) (isDependencyModalOpen st) (instance st)
        (timers st) (fits st) (toasts st)
  | SetSelectedObjectId v =>
      mkState (nodes st) (edges st) v
        (initiallyFitted st) (previousNodesIds st) (selectedService st)
        (isServiceModalOpen st) (isDependencyModalOpen st) (instance st)
        (timers st) (fits st) (toasts st)
  | SetInitiallyFitted b =>
      mkState (nodes st) (edges st) (selectedObjectId st)
        b (previousNodesIds st) (selectedService st)
        (isServiceModalOpen st) (isDependencyModalOpen st) (instance st)
        (timers st) (fits st) (toasts st)
  | SetPreviousNodesIds ids =>
      mkState (nodes st) (edges st) (selectedObjectId st)
        (initiallyFitted st) ids (selectedService st)
        (isServiceModalOpen st) (isDependencyModalOpen st) (instance st)
        (timers st) (fits st) (toasts st)
  | SetSelectedService s =>
      mkState (nodes st) (edges st) (selectedObjectId st)
        (initiallyFitted st) (previousNodesIds st) s
        (isServiceModalOpen st) (isDependencyModalOpen st) (instance st)
        (timers st) (fits st) (toasts st)
  | SetIsServiceModalOpen b =>
      mkState (nodes st) (edges st) (selectedObjectId st)
        (initiallyFitted st) (previousNodesIds st) (selectedService st)
        b (isDependencyModalOpen st) (instance st)
        (timers st) (fits st) (toasts st)
  | SetIsDependencyModalOpen b =>
      mkState (nodes st) (edges st) (selectedObjectId st)
        (initiallyFitted st) (previousNodesIds st) (selectedService st)
        (isServiceModalOpen st) b (instance st)
        (timers st) (fits st) (toasts st)
  | FitView opts =>
      match instance st with
      | None => st
      | Some i =>
          mkState (nodes st) (edges st) (selectedObjectId st)
            (initiallyFitted st) (previousNodesIds st) (selectedService st)
            (isServiceModalOpen st) (isDependencyModalOpen st) (instance st)
            (timers st) (fits st ++ [(opts, rendered i)]) (toasts st)
      end
  | SetTimeout callback _ =>
      mkState (nodes st) (edges st) (selectedObjectId st)
        (initiallyFitted st) (previousNodesIds st) (selectedService st)
        (isServiceModalOpen st) (isDependencyModalOpen st) (instance st)
        (timers st ++ [callback]) (fits st) (toasts st)
  | ShowErrorToast message =>
      mkState (nodes st) (edges st) (selectedObjectId st)
        (initiallyFitted st) (previousNodesIds st) (selectedService st)
        (isServiceModalOpen st) (isDependencyModalOpen st) (instance st)
        (timers st) (fits st) (toasts st ++ [message])
  end.

Definition exec (cmds : list Cmd) (st : State) : State := foldl exec1 st cmds.

(** The render that follows: the controlled [ReactFlow] receives the new
    [nodes] and its store holds them from then on. *)
Definition commit (st : State) : State :=
  mkState (nodes st) (edges st) (selectedObjectId st)
    (initiallyFitted st) (previousNodesIds st) (selectedService st)
    (isServiceModalOpen st) (isDependencyModalOpen st)
    ((λ _, {| rendered := nodes st |}) <$> instance st)
    (timers st) (fits st) (toasts st).

(** One timer tick: the queued callbacks run, oldest first. *)
Definition tick (st : State) : State :=
  exec (concat (timers st))
    (mkState (nodes st) (edges st) (selectedObjectId st)
       (initiallyFitted st) (previousNodesIds st) (selectedService st)
       (isServiceModalOpen st) (isDependencyModalOpen st) (instance st)
       [] (fits st) (toasts st)).

(** An effect or handler, the render it causes, then the timers. *)
Definition turn (cmds : list Cmd) (st : State) : State :=
  tick (commit (exec cmds st)).

(** The [fitView] calls a command list makes synchronously, and those it
    defers through a zero-delay timer. *)
Definition synchronous_fits (cmds : list Cmd) : list FitViewOptions :=
  omap (λ c, match c with FitView o => Some o | _ => None end) cmds.

Definition deferred_fits (cmds : list Cmd) : list FitViewOptions :=
  cmds ≫= λ c,
    match c with
    | SetTimeout callback 0 => synchronous_fits callback
    | _ => []
    end.

Definition changes_graph (c : Cmd) : bool :=
  match c with SetNodes _ | SetEdges _ => true | _ => false end.

(** A synchronous [fitView] that comes after a node or edge update of the
    same command list. *)
Fixpoint fit_after_change (seen : bool) (cmds : list Cmd) : bool :=
  match cmds with
  | [] => false
  | FitView _ :: rest => seen || fit_after_change seen rest
  | c :: rest => fit_after_change (seen || changes_graph c) rest
  end.

End TopologyMap.

(* ================================================================== *)
(** * The API wrappers (api.ts) *)
(* ================================================================== *)

Module Api.

Inductive Method := GET | POST | PUT | DELETE.

Inductive Body :=
| NoBody
| ServiceBody (service : FormData.t)
| ProtocolBody (protocol : option string).

Record HttpRequest := { method : Method; url : string; body : Body }.

(** The mutating wrappers, by name and arguments. *)
Inductive Call :=
| createService (service : FormData.t)
| updateService (serviceId : ServiceId) (service : FormData.t)
| deleteService (serviceId : ServiceId)
| createDependency (serviceId targetServiceId : ServiceId)
    (protocol : option string)
| deleteDependency (serviceId targetServiceId : ServiceId).

#[global] Instance Call_eq_dec : EqDecision Call.
Proof. solve_decision. Defined.

(** The request each wrapper hands to the [ApiClient]. *)
Definition request (c : Call) : HttpRequest :=
  match c with
  | createService service =>
      {| method := POST; url := "/topology/services";
         body := ServiceBody service |}
  | updateService serviceId service =>
      {| method := PUT; url := "/topology/services/" +:+ template serviceId;
         body := ServiceBody service |}
  | deleteService serviceId =>
      {| method := DELETE;
         url := "/topology/services/" +:+ template serviceId;
         body := NoBody |}
  | createDependency serviceId targetServiceId protocol =>
      {| method := POST;
         url := "/topology/services/" +:+ template serviceId
                +:+ "/dependencies/" +:+ template targetServiceId;
         body := ProtocolBody protocol |}
  | deleteDependency serviceId targetServiceId =>
      {| method := DELETE;
         url := "/topology/services/" +:+ template serviceId
                +:+ "/dependencies/" +:+ template targetServiceId;
         body := NoBody |}
  end.

(** The optional [params] of [getTopology]. *)
Record TopologyParams := {
  providerIds : option (list string);
  services : option (list string);
  environment : option string;
}.

(** The [URLSearchParams] that [getTopology] fills, as the list of its
    name/value pairs.  An array is truthy even when empty; a string is
    truthy unless empty. *)
Definition searchParams (params : option TopologyParams)
  : list (string * string) :=
  match params ≫= providerIds with
  | Some providerIds => [("provider_ids", String.concat "," providerIds)]
  | None => []
  end
  ++ match params ≫= services with
     | Some services => [("services", String.concat "," services)]
     | None => []
     end
  ++ match params ≫= environment with
     | Some environment =>
         if bool_decide (environment = "") then []
         else [("environment", environment)]
     | None => []
     end.

(** The three reading wrappers.  [toString] is
    [URLSearchParams.prototype.toString], a function of the platform. *)
Definition getTopology (toString : list (string * string) → string)
    (params : option TopologyParams) : HttpRequest :=
  {| method := GET; url := "/topology?" +:+ toString (searchParams params);
     body := NoBody |}.

Definition getApplications : HttpRequest :=
  {| method := GET; url := "/topology/applications"; body := NoBody |}.

Definition pullTopology : HttpRequest :=
  {| method := POST; url := "/topology/pull"; body := NoBody |}.

(** How the promise of a request settles. *)
Inductive Outcome :=
| Resolved
| Rejected (reason : string).

End Api.

(* ================================================================== *)
(** * Asynchronous handlers *)
(* ================================================================== *)

(** What a dialog does that the user or the parent component can observe.
    [OnSuccess] and [OnClose] record that the callback prop of that name
    has been invoked. *)
Inductive Event :=
| PreventDefault
| SetIsLoading (b : bool)
| Called (c : Api.Call)
| SuccessToast (message : string)
| ErrorToast (message : string)
| ConsoleError (message reason : string)
| OnSuccess
| OnClose.

#[global] Instance Event_eq_dec : EqDecision Event.
Proof. solve_decision. Defined.

Module Async.
Section WithClient.
(** The [ApiClient] ([@/shared/api/client], outside the sources) and the
    backend behind it: a request changes the backend and settles. *)
Context {Server : Type}.
Variable client : Server → Api.HttpRequest → Server * Api.Outcome.

Record World := mkWorld { server : Server; log : list Event }.

Inductive Completion (A : Type) :=
| Normal (a : A)
| Thrown (error : string).
Arguments Normal {A} a.
Arguments Thrown {A} error.

Definition t (A : Type) : Type := World → Completion A * World.

Definition ret {A} (a : A) : t A := λ w, (Normal a, w).

Definition bind {A B} (m : t A) (k : A → t B) : t B :=
  λ w, match m w with
       | (Normal a, w') => k a w'
       | (Thrown e, w') => (Thrown e, w')
       end.

Definition emit (e : Event) : t unit :=
  λ w, (Normal tt, mkWorld (server w) (log w ++ [e])).

(** The call of a callback prop: it is invoked, and returns or
    throws. *)
Definition invoke (e : Event) (callback : Callback) : t unit :=
  λ w, let w' := mkWorld (server w) (log w ++ [e]) in
       match callback with
       | Returns => (Normal tt, w')
       | Throws error => (Thrown error, w')
       end.

(** [await f(api, ...)]: the call is issued, the backend answers, and
    the handler goes on only then; a rejection is thrown. *)
Definition await (c : Api.Call) : t unit :=
  λ w, let '(s, o) := client (server w) (Api.request c) in
       let w' := mkWorld s (log w ++ [Called c]) in
       match o with
       | Api.Resolved => (Normal tt, w')
       | Api.Rejected reason => (Thrown reason, w')
       end.

(** [try { body } catch (error) { handler } finally { final }] *)
Definition try_catch_finally {A} (body : t A) (handler : string → t A)
    (final : t unit) : t A :=
  λ w, let '(r, w1) :=
         match body w with
         | (Normal a, w') => (Normal a, w')
         | (Thrown e, w') => handler e w'
         end in
       match final w1 with
       | (Normal _, w2) => (r, w2)
       | (Thrown e, w2) => (Thrown e, w2)
       end.

(** [for (const x of xs) { body }] *)
Fixpoint for_of {A} (xs : list A) (body : A → t unit) : t unit :=
  match xs with
  | [] => ret tt
  | x :: rest => bind (body x) (λ _, for_of rest body)
  end.
End WithClient.

Arguments Normal {A} a.
Arguments Thrown {A} error.
Arguments mkWorld {Server} server log.
Arguments server {Server} w.
Arguments log {Server} w.

#[global] Instance async_ret {Server} : MRet (@t Server) := @ret Server.
#[global] Instance async_bind {Server} : MBind (@t Server) :=
  λ A B k m, bind m k.
End Async.


(* ================================================================== *)
(** * What [TopologyMap] renders *)
(* ================================================================== *)

Module TopologyView.

(** The props of the [ServiceModal] element. *)
Record ServiceModalProps := {
  isOpen : bool;
  onClose : list TopologyMap.Cmd;
  onSuccess : Callback;
  service : option TopologyService.t;
}.

Inductive View :=
| Loading
| ErrorLoadingTopologyData
| Map (contextMenus : list Node.t) (serviceModal : ServiceModalProps).

(** The render of [TopologyMap], as far as the two dialogs go.  The two
    early returns come first.  The elements of the main [return] are
    built in source order: the context menus, shown for the selected
    nodes; the [ServiceModal] element; then
    [selectedService && <DependencyManager ... />], whose props read
    [topology.services].  No binding named [topology] exists in the
    file, so with a selected service evaluating that reference throws
    and the render returns nothing. *)
Definition render (isLoading error : bool) (st : TopologyMap.State)
  : Async.Completion View :=
  if isLoading then Async.Normal Loading
  else if error then Async.Normal ErrorLoadingTopologyData
  else
    let contextMenus := filter (λ n, Node.is_selected n = true)
                          (TopologyMap.nodes st) in
    let serviceModal :=
      {| isOpen := TopologyMap.isServiceModalOpen st;
         onClose := TopologyMap.closeServiceModal;
         onSuccess := TopologyMap.handleServiceModalSuccess;
         service := TopologyMap.selectedService st |} in
    match TopologyMap.selectedService st with
    | Some _ => Async.Thrown "ReferenceError: topology is not defined"
    | None => Async.Normal (Map contextMenus serviceModal)
    end.

End TopologyView.

(* ================================================================== *)
(** * [ServiceModal] (service-modal.tsx) *)
(* ================================================================== *)

Module ServiceModal.

(** The initial value of the [formData] state. *)
Definition initialFormData : FormData.t :=
  {| FormData.service := "";
     FormData.display_name := "";
     FormData.description := Some "";
     FormData.team := Some "";
     FormData.email := Some "";
     FormData.slack := Some "";
     FormData.environment := "production" |}.

(** [value || fallback] on an optional string: [undefined] and the empty
    string are falsy. *)
Definition or_else (value : option string) (fallback : string) : string :=
  match value with
  | Some v => if bool_decide (v = "") then fallback else v
  | None => fallback
  end.

(** The effect on [service]: with a service the form is filled from it,
    without one the form state is left as it is. *)
Definition serviceEffect (service : option TopologyService.t)
    (formData : FormData.t) : FormData.t :=
  match service with
  | Some service =>
      {| FormData.service := TopologyService.service service;
         FormData.display_name := TopologyService.display_name service;
         FormData.description := TopologyService.description service;
         FormData.team := TopologyService.team service;
         FormData.email := TopologyService.email service;
         FormData.slack := TopologyService.slack service;
         FormData.environment :=
           or_else (TopologyService.environment service) "production" |}
  | None => formData
  end.

(** The seven inputs of the form, by their [id]. *)
Module Field.
Inductive t :=
| service | display_name | description | team | email | slack
| environment.

#[global] Instance eq_dec : EqDecision t.
Proof. solve_decision. Defined.
End Field.

(** [onChange] of an input: [setFormData({ ...formData, [field]: value })]. *)
Definition onChange (field : Field.t) (value : string)
    (formData : FormData.t) : FormData.t :=
  let '(FormData.mk s dn d t e sl env) := formData in
  match field with
  | Field.service => FormData.mk value dn d t e sl env
  | Field.display_name => FormData.mk s value d t e sl env
  | Field.description => FormData.mk s dn (Some value) t e sl env
  | Field.team => FormData.mk s dn d (Some value) e sl env
  | Field.email => FormData.mk s dn d t (Some value) sl env
  | Field.slack => FormData.mk s dn d t e (Some value) env
  | Field.environment => FormData.mk s dn d t e sl value
  end.

Section WithClient.
Context {Server : Type}.
Variable client : Server → Api.HttpRequest → Server * Api.Outcome.

Definition handleSubmit (onSuccess onClose : Callback)
    (service : option TopologyService.t)
    (formData : FormData.t) : Async.t unit :=
  Async.emit PreventDefault;;
  Async.emit (SetIsLoading true);;
  Async.try_catch_finally
    (match service with
     | Some service =>
         Async.await client
           (Api.updateService (TopologyService.id service) formData);;
         Async.emit (SuccessToast "Service updated successfully")
     | None =>
         Async.await client (Api.createService formData);;
         Async.emit (SuccessToast "Service created successfully")
     end;;
     Async.invoke OnSuccess onSuccess;;
     Async.invoke OnClose onClose)
    (λ error,
       Async.emit (ConsoleError "Failed to save service:" error);;
       Async.emit
         (ErrorToast
            ("Failed to "
             +:+ match service with
                 | Some _ => "update"
                 | None => "create"
                 end
             +:+ " service. Please try again.")))
    (Async.emit (SetIsLoading false)).
End WithClient.

(** ** The component over time

    The dialog stays mounted while its parent does ([TopologyMap] renders
    it unconditionally and only flips [isOpen]); its [formData] state
    lives as long.  The parent may hand it another [service]; the user
    may type into an input. *)
Record Component := mkComponent {
  props_service : option TopologyService.t;
  formData : FormData.t;
}.

Inductive UiEvent :=
| ServiceProp (service : option TopologyService.t)
| Change (field : Field.t) (value : string).

(** First render, then the effect. *)
Definition mount (service : option TopologyService.t) : Component :=
  mkComponent service (serviceEffect service initialFormData).

(** The service input is disabled while a service is edited. *)
Definition step (c : Component) (e : UiEvent) : Component :=
  match e with
  | ServiceProp service' =>
      mkComponent service' (serviceEffect service' (formData c))
  | Change field value =>
      if bool_decide (field = Field.service)
         && bool_decide (is_Some (props_service c))
      then c
      else mkComponent (props_service c) (onChange field value (formData c))
  end.

Definition steps (c : Component) (events : list UiEvent) : Component :=
  foldl step c events.

Definition edits_environment (e : UiEvent) : bool :=
  match e with Change Field.environment _ => true | _ => false end.

Definition shows_existing_service (e : UiEvent) : bool :=
  match e with ServiceProp (Some _) => true | _ => false end.

(** ** The inputs and the submit button *)

Record Input := mkInput {
  input_id : Field.t;
  value : option string;
  required : bool;
  disabled : bool;
}.

(** The [Input]/[Textarea] elements of the form, in document order. *)
Definition inputs (service : option TopologyService.t)
    (formData : FormData.t) : list Input :=
  [ mkInput Field.service (Some (FormData.service formData))
      true (bool_decide (is_Some service));
    mkInput Field.display_name (Some (FormData.display_name formData))
      true false;
    mkInput Field.description (FormData.description formData) false false;
    mkInput Field.team (FormData.team formData) false false;
    mkInput Field.email (FormData.email formData) false false;
    mkInput Field.slack (FormData.slack formData) false false;
    mkInput Field.environment (Some (FormData.environment formData))
      true false ].

(** Modelled from the spec: the [Input] and [Button] components of
    [@/components/ui] and the submission of the form they sit in are not
    part of the sources.  Per the spec a form with a required field left
    empty is rejected on the client, before any request is issued: an
    enabled required input without text keeps the submit button from
    reaching the form's [onSubmit]. *)
Definition value_missing (i : Input) : bool :=
  required i && negb (disabled i)
  && bool_decide (default "" (value i) = "").

Section Submit.
Context {Server : Type}.
Variable client : Server → Api.HttpRequest → Server * Api.Outcome.

(** Modelled from the spec: see [value_missing]. *)
Definition clickSubmit (onSuccess onClose : Callback)
    (service : option TopologyService.t)
    (formData : FormData.t) : Async.t unit :=
  if existsb value_missing (inputs service formData)
  then mret tt
  else handleSubmit client onSuccess onClose service formData.
End Submit.

End ServiceModal.

(* ================================================================== *)
(** * [DependencyManager] (dependency-manager.tsx) *)
(* ================================================================== *)

Module DependencyManager.

Section Props.
Variable service : TopologyService.t.
Variable availableServices : list TopologyService.t.
Variable existingDependencies : list ServiceId.

Definition toggleDependency (serviceId : ServiceId)
    (prev : list ServiceId) : list ServiceId :=
  if bool_decide (serviceId ∈ prev)
  then filter (λ id, id ≠ serviceId) prev
  else prev ++ [serviceId].

(** The services that get a check-box. *)
Definition checkboxes : list TopologyService.t :=
  filter (λ s, TopologyService.id s ≠ TopologyService.id service)
    availableServices.

Definition removedDependencies (selectedDependencies : list ServiceId)
  : list ServiceId :=
  filter (λ dep, dep ∉ selectedDependencies) existingDependencies.

Definition newDependencies (selectedDependencies : list ServiceId)
  : list ServiceId :=
  filter (λ dep, dep ∉ existingDependencies) selectedDependencies.

Section WithClient.
Context {Server : Type}.
Variable client : Server → Api.HttpRequest → Server * Api.Outcome.

Definition handleSubmit (onSuccess onClose : Callback)
    (selectedDependencies : list ServiceId) : Async.t unit :=
  Async.emit PreventDefault;;
  Async.emit (SetIsLoading true);;
  Async.try_catch_finally
    ((* Process removals *)
     Async.for_of (removedDependencies selectedDependencies)
       (λ depId,
          Async.await client
            (Api.deleteDependency (TopologyService.id service) depId));;
     (* Process additions *)
     Async.for_of (newDependencies selectedDependencies)
       (λ depId,
          Async.await client
            (Api.createDependency (TopologyService.id service) depId
               None));;
     Async.emit (SuccessToast "Dependencies updated successfully");;
     Async.invoke OnSuccess onSuccess;;
     Async.invoke OnClose onClose)
    (λ error,
       Async.emit (ConsoleError "Failed to update dependencies:" error);;
       Async.emit
         (ErrorToast
            "Failed to update dependencies. Please try again."))
    (Async.emit (SetIsLoading false)).
End WithClient.

End Props.

(** ** The component over time

    The props come from the parent.  [TopologyMap] computes
    [existingDependencies] with [filter] and [map] at each of its renders
    (api.ts, lines 542-544), so each render hands over a new array and the
    effect on [existingDependencies] runs after it: the selection is what
    the prop is.  In between the user toggles one of the rendered
    check-boxes, named here by its position in the list. *)
Record Component := mkComponent {
  service : TopologyService.t;
  availableServices : list TopologyService.t;
  existingDependencies : list ServiceId;
  selectedDependencies : list ServiceId;
}.

Inductive UiEvent :=
| Render (service : TopologyService.t)
    (availableServices : list TopologyService.t)
    (existingDependencies : list ServiceId)
| ToggleCheckbox (position : nat).

(** First render, with the selection empty, then the effect. *)
Definition mount (service : TopologyService.t)
    (availableServices : list TopologyService.t)
    (existingDependencies : list ServiceId) : Component :=
  mkComponent service availableServices existingDependencies
    existingDependencies.

Definition step (c : Component) (e : UiEvent) : Component :=
  match e with
  | Render service availableServices existingDependencies =>
      mkComponent service availableServices existingDependencies
        existingDependencies
  | ToggleCheckbox position =>
      match checkboxes (service c) (availableServices c) !! position with
      | Some availableService =>
          mkComponent (service c) (availableServices c)
            (existingDependencies c)
            (toggleDependency (TopologyService.id availableService)
               (selectedDependencies c))
      | None => c
      end
  end.

Definition steps (c : Component) (events : list UiEvent) : Component :=
  foldl step c events.

End DependencyManager.

(** The calls a handler has issued, oldest first. *)
Definition calls (log : list Event) : list Api.Call :=
  omap (λ e, match e with Called c => Some c | _ => None end) log.

(** Issuing requests one after the other, each against the backend the one
    before has left. *)
Section Sequential.
Context {Server : Type}.
Variable client : Server → Api.HttpRequest → Server * Api.Outcome.

Definition settle (s : Server) (c : Api.Call) : Server * Api.Outcome :=
  client s (Api.request c).

Definition after (s : Server) (cs : list Api.Call) : Server :=
  foldl (λ s c, (settle s c).1) s cs.

Fixpoint all_resolve (s : Server) (cs : list Api.Call) : Prop :=
  match cs with
  | [] => True
  | c :: rest =>
      (settle s c).2 = Api.Resolved ∧ all_resolve (settle s c).1 rest
  end.
End Sequential.

(* ================================================================== *)
(** * Vocabulary of the statements *)
(* ================================================================== *)

(** [s] is a member service key of one of the [applications] whose id is
    among [selectedApplicationIds]. *)
Definition member_of_selected (applications : list TopologyApplication.t)
    (selectedApplicationIds : list string) (s : string) : Prop :=
  ∃ app m,
    app ∈ applications
    ∧ TopologyApplication.id app ∈ selectedApplicationIds
    ∧ m ∈ TopologyApplication.services app
    ∧ TopologyServiceMinimal.service m = s.

(** [n'] is [n] with at most its [hidden] (resp. [selected]) flag changed. *)
Definition same_but_hidden (n n' : Node.t) : Prop :=
  n' = Node.with_hidden (Node.is_hidden n') n.

Definition same_but_selected (n n' : Node.t) : Prop :=
  n' = Node.with_selected (Node.is_selected n') n.

Definition edge_same_but_hidden (e e' : Edge.t) : Prop :=
  e' = Edge.with_hidden (Edge.is_hidden e') e.

(** The calls a submission of the dependency manager is to make: the
    deletions of what was unselected, then the creations of what was newly
    selected. *)
Definition plan (service : TopologyService.t)
    (existingDependencies selectedDependencies : list ServiceId)
  : list Api.Call :=
  (Api.deleteDependency (TopologyService.id service)
     <$> DependencyManager.removedDependencies existingDependencies
           selectedDependencies)
  ++ ((λ depId, Api.createDependency (TopologyService.id service) depId None)
        <$> DependencyManager.newDependencies existingDependencies
              selectedDependencies).

(** Every selected id is an existing dependency or differs from the id of
    the service whose dependencies are managed. *)
Definition from_checkbox_or_existing (service : TopologyService.t)
    (existingDependencies selected : list ServiceId) : Prop :=
  ∀ depId,
    depId ∈ selected →
    depId ∈ existingDependencies ∨ depId ≠ TopologyService.id service.

(** A selected id that is not an existing dependency has come from a
    check-box, so it is not the service itself. *)
Definition selection_invariant (c : DependencyManager.Component) : Prop :=
  from_checkbox_or_existing (DependencyManager.service c)
    (DependencyManager.existingDependencies c)
    (DependencyManager.selectedDependencies c).

(** The call a submission of the service form makes, and the texts of its
    two toasts. *)
Definition submission (service : option TopologyService.t)
    (formData : FormData.t) : Api.Call :=
  match service with
  | Some service => Api.updateService (TopologyService.id service) formData
  | None => Api.createService formData
  end.

Definition success_message (service : option TopologyService.t) : string :=
  match service with
  | Some _ => "Service updated successfully"
  | None => "Service created successfully"
  end.

Definition error_message (service : option TopologyService.t) : string :=
  match service with
  | Some _ => "Failed to update service. Please try again."
  | None => "Failed to create service. Please try again."
  end.

(** What the [try] block of a submission logs once its requests are
    through and the success toast is shown: [onSuccess] is invoked, and
    [onClose] after it if [onSuccess] returns; if either throws, the
    [catch] block logs the error under [label] and shows [toast]. *)
Definition callbacks_log (label toast : string) (onSuccess onClose : Callback)
  : list Event :=
  match onSuccess, onClose with
  | Returns, Returns => [OnSuccess; OnClose]
  | Returns, Throws error =>
      [OnSuccess; OnClose; ConsoleError label error; ErrorToast toast]
  | Throws error, _ => [OnSuccess; ConsoleError label error; ErrorToast toast]
  end.

(** What a handler has added to the log. *)
Definition added {Server} (w w' : @Async.World Server) : list Event :=
  drop (length (Async.log w)) (Async.log w').

(** Running the commands [cmds] from [st] leaves [st'] with exactly the
    nodes whose id is in [ids] selected, the edges as they were, no
    synchronous [fitView], and one more timer, which fits the view to
    [fitted]. *)
Definition selects_and_fits (st st' : TopologyMap.State)
    (ids : list string) (fitted : list Node.t) : Prop :=
  Forall2
    (λ n n',
       same_but_selected n n'
       ∧ (Node.is_selected n' = true ↔ Node.id n ∈ ids))
    (TopologyMap.nodes st) (TopologyMap.nodes st')
  ∧ TopologyMap.edges st' = TopologyMap.edges st
  ∧ TopologyMap.fits st' = TopologyMap.fits st
  ∧ ∃ opts,
      TopologyMap.timers st'
      = TopologyMap.timers st ++ [[TopologyMap.FitView opts]]
      ∧ fit_nodes opts = Some fitted.

(* ================================================================== *)
(** * A small topology, for the instances *)
(* ================================================================== *)

Module Sample.
Definition api : TopologyService.t :=
  TopologyService.mk (NumId 1) "api" "API" None None None None
    (Some "production") true true.

Definition db : TopologyService.t :=
  TopologyService.mk (NumId 2) "db" "Database" None None None None
    (Some "staging") false false.

Definition minimal (s : TopologyService.t) : TopologyServiceMinimal.t :=
  TopologyServiceMinimal.mk (TopologyService.id s)
    (TopologyService.service s) (TopologyService.display_name s).

Definition payments : TopologyApplication.t :=
  TopologyApplication.mk "payments" "Payments" [minimal api].

Definition node_api : Node.t :=
  Node.mk "api" "service" {| x := 640; y := 480 |} (ServiceData api)
    None None.

Definition node_db : Node.t :=
  Node.mk "db" "service" {| x := 200; y := 0 |} (ServiceData db)
    None (Some true).

Definition node_payments : Node.t :=
  Node.mk "payments" "application" {| x := 600; y := 440 |}
    (ApplicationData payments) None None.

Definition edge_api_db : Edge.t :=
  Edge.mk "api-db" "api" "db" (Some "tcp") None.

Definition graph : list Node.t := [node_payments; node_api; node_db].

(** The map as rendered: the store of the renderer holds the nodes of the
    state, no timer is pending. *)
Definition state : TopologyMap.State :=
  TopologyMap.mkState graph [edge_api_db] None true
    (list_to_set ["payments"; "api"; "db"]) None false false
    (Some {| rendered := graph |}) [] [] [].

(** Modelled from the spec: [getNodesAndEdgesFromTopologyData] and
    [getLayoutedElements] are not part of the sources.  For the instances
    the builder emits one service node per service record, keyed by the
    service key and without a position of its own (spec 4.2), and the
    layout gives every node a position that depends on the collections
    alone (spec 4.3): the i-th node goes to x = 200 i, y = 0. *)
Definition build (topologyData : list TopologyService.t)
    (_ : gmap string TopologyApplication.t) (_ : list unit)
  : list (string * Node.t) * list (string * Edge.t) :=
  ((λ s, (TopologyService.service s,
          Node.mk (TopologyService.service s) "service" {| x := 0; y := 0 |}
            (ServiceData s) None None)) <$> topologyData,
   []).

Definition layout (nodes : list Node.t) (edges : list Edge.t)
  : list Node.t * list Edge.t :=
  (imap (λ i, Node.with_position {| x := 200 * Z.of_nat i; y := 0 |}) nodes,
   edges).

(** The map after a first load of the single service "api", which the
    user has then dragged to (640, 480); renamed on the backend since. *)
Definition dragged : TopologyMap.State :=
  TopologyMap.mkState [node_api] [] None true (list_to_set ["api"]) None
    false false (Some {| rendered := [node_api] |}) [] [] [].

Definition api_renamed : TopologyService.t :=
  TopologyService.mk (NumId 1) "api" "Public API" None None None None
    (Some "production") true true.

(** A backend for the instances.  It keeps the requests it has accepted,
    oldest first, and rejects two of them: a dependency on service 3,
    which it does not know, and a service named "legacy". *)
Definition backend (accepted : list Api.HttpRequest) (r : Api.HttpRequest)
  : list Api.HttpRequest * Api.Outcome :=
  if bool_decide (Api.url r = "/topology/services/1/dependencies/3")
  then (accepted, Api.Rejected "404")
  else
    match Api.body r with
    | Api.ServiceBody fd =>
        if bool_decide (FormData.service fd = "legacy")
        then (accepted, Api.Rejected "409")
        else (accepted ++ [r], Api.Resolved)
    | _ => (accepted ++ [r], Api.Resolved)
    end.

Definition cache : TopologyService.t :=
  TopologyService.mk (NumId 5) "cache" "Cache" None None None None
    None true true.

Definition worker : TopologyService.t :=
  TopologyService.mk (NumId 7) "worker" "Worker" None (Some "platform")
    None None (Some "staging") true true.

Definition world : Async.World := Async.mkWorld ([] : list Api.HttpRequest) [].
End Sample.

(* ================================================================== *)
(** * More vocabulary *)
(* ================================================================== *)

(** The [hidden] flag the application filter gives a node and an edge. *)
Definition node_hidden_by (applications : list TopologyApplication.t)
    (selectedApplicationIds : list string) (n : Node.t) : bool :=
  match selectedApplicationIds with
  | [] => false
  | _ =>
      bool_decide (Node.type n = "service")
      && negb (bool_decide
                 (Node.id n
                    ∈ TopologyMap.selectedServiceNodesIds applications
                        selectedApplicationIds))
  end.

Definition edge_hidden_by (applications : list TopologyApplication.t)
    (selectedApplicationIds : list string) (e : Edge.t) : bool :=
  match selectedApplicationIds with
  | [] => false
  | _ =>
      negb (bool_decide
              (Edge.source e
                 ∈ TopologyMap.selectedServiceNodesIds applications
                     selectedApplicationIds)
            && bool_decide
                 (Edge.target e
                    ∈ TopologyMap.selectedServiceNodesIds applications
                        selectedApplicationIds))
  end.

(** The selection effect gets past its guard and finds a node or an
    application for the id. *)
Definition resolves (isVisible : bool) (selectedObjectId : option string)
    (instance : option ReactFlowInstance)
    (applicationMap : gmap string TopologyApplication.t) : bool :=
  match selectedObjectId with
  | None => false
  | Some id =>
      isVisible && negb (bool_decide (id = ""))
      && (bool_decide (is_Some (instance ≫= λ i, getNode i id))
          || bool_decide (is_Some (applicationMap !! id)))
  end.

(** The dependency manager holds no id twice, in the prop or in the
    selection; a render hands over a prop without repetition. *)
Definition distinct_dependencies (c : DependencyManager.Component) : Prop :=
  NoDup (DependencyManager.existingDependencies c)
  ∧ NoDup (DependencyManager.selectedDependencies c).

Definition renders_distinct (e : DependencyManager.UiEvent) : Prop :=
  match e with
  | DependencyManager.Render _ _ existingDependencies =>
      NoDup existingDependencies
  | DependencyManager.ToggleCheckbox _ => True
  end.

(** The user empties the environment input. *)
Definition blanks_environment (e : ServiceModal.UiEvent) : bool :=
  match e with
  | ServiceModal.Change ServiceModal.Field.environment value =>
      bool_decide (value = "")
  | _ => false
  end.

(* ================================================================== *)
(** * Properties of [TopologyMap] *)
(* ================================================================== *)

Section TopologyMapFacts.
Import TopologyMap.

Lemma elem_of_new_Set_acc (xs acc : list string) (x : string) :
  x ∈ foldl (λ set x, if bool_decide (x ∈ set) then set else set ++ [x])
        acc xs
  ↔ x ∈ acc ∨ x ∈ xs.
Proof.
  revert acc. induction xs as [|y xs IH]; intros acc; simpl.
  - rewrite elem_of_nil. tauto.
  - rewrite IH, elem_of_cons. case_bool_decide as Hy.
    + split; [tauto|]. intros [?|[->|?]]; auto.
    + rewrite elem_of_app, list_elem_of_singleton. tauto.
Qed.

Lemma elem_of_new_Set (xs : list string) (x : string) :
  x ∈ new_Set xs ↔ x ∈ xs.
Proof.
  unfold new_Set. rewrite elem_of_new_Set_acc, elem_of_nil. tauto.
Qed.

(** The set the filter computes is the union of the member service keys
    over the selected applications. *)
Lemma elem_of_selectedServiceNodesIds applications selectedApplicationIds s :
  s ∈ selectedServiceNodesIds applications selectedApplicationIds
  ↔ member_of_selected applications selectedApplicationIds s.
Proof.
  unfold selectedServiceNodesIds, member_of_selected.
  rewrite elem_of_new_Set, list_elem_of_bind.
  split.
  - intros (app & Hs & Happ).
    case_bool_decide as Hsel; [|by apply elem_of_nil in Hs].
    apply list_elem_of_fmap in Hs as (m & -> & Hm). by exists app, m.
  - intros (app & m & Happ & Hsel & Hm & <-).
    exists app. split; [|done].
    rewrite bool_decide_true by done.
    apply list_elem_of_fmap. by exists m.
Qed.

Lemma Forall2_fmap_diag {A} (P : A → A → Prop) (f : A → A) (l : list A) :
  (∀ a, P a (f a)) → Forall2 P l (f <$> l).
Proof.
  intros HP. apply Forall2_fmap_r, Forall_Forall2_diag, Forall_forall.
  intros a _. apply HP.
Qed.

Lemma exec_cons c cmds st : exec (c :: cmds) st = exec cmds (exec1 st c).
Proof. reflexivity. Qed.

Lemma exec_app cmds1 cmds2 st :
  exec (cmds1 ++ cmds2) st = exec cmds2 (exec cmds1 st).
Proof. apply foldl_app. Qed.

(** A synchronous [fitView] touches neither nodes nor edges. *)
Lemma nodes_exec1_FitView opts st :
  nodes (exec1 st (FitView opts)) = nodes st.
Proof. simpl. by destruct (instance st). Qed.

Lemma edges_exec1_FitView opts st :
  edges (exec1 st (FitView opts)) = edges st.
Proof. simpl. by destruct (instance st). Qed.

Lemma same_but_hidden_with_hidden b n :
  same_but_hidden n (Node.with_hidden b n).
Proof. unfold same_but_hidden, Node.is_hidden. by destruct b. Qed.

Lemma same_but_selected_with_selected b n :
  same_but_selected n (Node.with_selected b n).
Proof. unfold same_but_selected, Node.is_selected. by destruct b. Qed.

Lemma edge_same_but_hidden_with_hidden b e :
  edge_same_but_hidden e (Edge.with_hidden b e).
Proof. unfold edge_same_but_hidden, Edge.is_hidden. by destruct b. Qed.

(** C3. The application filter.  With no application selected every
    node and edge ends with [hidden = false].  Otherwise, with [U] the
    member service keys of the selected applications, a node ends hidden
    exactly when its type is "service" and its id is not in [U], an edge
    ends hidden exactly when its source or its target is not in [U], and
    a node of any other type (an application node) is never hidden by
    the filter.  Nothing but the [hidden] flag changes. *)
Theorem filter_by_applications_hidden_flags
    applications selectedApplicationIds instance st :
  let st' :=
    exec (watchSelectedApplications applications selectedApplicationIds
            instance) st in
  let U := member_of_selected applications selectedApplicationIds in
  (selectedApplicationIds = [] →
     Forall2 (λ n n', same_but_hidden n n' ∧ Node.hidden n' = Some false)
       (nodes st) (nodes st')
     ∧ Forall2
         (λ e e', edge_same_but_hidden e e' ∧ Edge.hidden e' = Some false)
         (edges st) (edges st'))
  ∧ (selectedApplicationIds ≠ [] →
     Forall2
       (λ n n',
          same_but_hidden n n'
          ∧ (Node.is_hidden n' = true
             ↔ Node.type n = "service" ∧ ¬ U (Node.id n))
          ∧ (Node.type n ≠ "service" → Node.is_hidden n' = false))
       (nodes st) (nodes st')
     ∧ Forall2
         (λ e e',
            edge_same_but_hidden e e'
            ∧ (Edge.is_hidden e' = true
               ↔ ¬ U (Edge.source e) ∨ ¬ U (Edge.target e)))
         (edges st) (edges st')).
Proof.
  intros st' U. subst st'. unfold watchSelectedApplications. split.
  - intros ->. simpl.
    split; apply Forall2_fmap_diag; intros;
      (split; [|done]);
      [apply same_but_hidden_with_hidden
      |apply edge_same_but_hidden_with_hidden].
  - intros Hne. rewrite bool_decide_false
      by (by destruct selectedApplicationIds).
    cbv zeta. rewrite !exec_cons.
    change (exec [] ?s) with s.
    rewrite nodes_exec1_FitView, edges_exec1_FitView.
    simpl. split; apply Forall2_fmap_diag.
    + intros n. split; [apply same_but_hidden_with_hidden|].
      unfold Node.is_hidden, U; simpl.
      rewrite <- elem_of_selectedServiceNodesIds.
      destruct (decide (Node.type n = "service")) as [Ht|Ht],
        (decide (Node.id n ∈ selectedServiceNodesIds applications
                   selectedApplicationIds)) as [Hi|Hi];
        rewrite ?(bool_decide_true _ Ht), ?(bool_decide_false _ Ht),
          ?(bool_decide_true _ Hi), ?(bool_decide_false _ Hi); simpl;
        intuition congruence.
    + intros e. split; [apply edge_same_but_hidden_with_hidden|].
      unfold Edge.is_hidden, U; simpl.
      rewrite <- !elem_of_selectedServiceNodesIds.
      destruct
        (decide (Edge.source e ∈ selectedServiceNodesIds applications
                   selectedApplicationIds)) as [Hs|Hs],
        (decide (Edge.target e ∈ selectedServiceNodesIds applications
                   selectedApplicationIds)) as [Ht|Ht];
        rewrite ?(bool_decide_true _ Hs), ?(bool_decide_false _ Hs),
          ?(bool_decide_true _ Ht), ?(bool_decide_false _ Ht); simpl;
        intuition congruence.
Qed.

Lemma filter_by_applications_hidden_flags_witness :
  (Forall2 (λ n n', same_but_hidden n n' ∧ Node.hidden n' = Some false)
     Sample.graph
     (nodes (exec (watchSelectedApplications [Sample.payments] []
                     (instance Sample.state)) Sample.state))
   ∧ Forall2
       (λ e e', edge_same_but_hidden e e' ∧ Edge.hidden e' = Some false)
       [Sample.edge_api_db]
       (edges (exec (watchSelectedApplications [Sample.payments] []
                       (instance Sample.state)) Sample.state)))
  ∧ (Forall2
       (λ n n',
          same_but_hidden n n'
          ∧ (Node.is_hidden n' = true
             ↔ Node.type n = "service"
               ∧ ¬ member_of_selected [Sample.payments] ["payments"]
                     (Node.id n))
          ∧ (Node.type n ≠ "service" → Node.is_hidden n' = false))
       Sample.graph
       (nodes (exec (watchSelectedApplications [Sample.payments]
                       ["payments"] (instance Sample.state)) Sample.state))
     ∧ Forall2
         (λ e e',
            edge_same_but_hidden e e'
            ∧ (Edge.is_hidden e' = true
               ↔ ¬ member_of_selected [Sample.payments] ["payments"]
                     (Edge.source e)
                 ∨ ¬ member_of_selected [Sample.payments] ["payments"]
                       (Edge.target e)))
         [Sample.edge_api_db]
         (edges (exec (watchSelectedApplications [Sample.payments]
                         ["payments"] (instance Sample.state))
                   Sample.state))).
Proof.
  split.
  - apply (proj1 (filter_by_applications_hidden_flags
                    [Sample.payments] [] (instance Sample.state)
                    Sample.state)).
    reflexivity.
  - apply (proj2 (filter_by_applications_hidden_flags
                    [Sample.payments] ["payments"] (instance Sample.state)
                    Sample.state)).
    discriminate.
Defined.

(** The filter at work on the sample map: with "payments" selected the
    service "db" and the edge into it are hidden, "api" and the
    application node stay. *)
Example filter_by_applications_sample :
  let st' :=
    exec (watchSelectedApplications [Sample.payments] ["payments"]
            (instance Sample.state)) Sample.state in
  Node.is_hidden <$> nodes st' = [false; false; true]
  ∧ Edge.is_hidden <$> edges st' = [true].
Proof. vm_compute. done. Qed.

Lemma highlight_then_fit ids instance st :
  selects_and_fits st
    (exec (highlightNodes ids ++ fitViewToServices instance ids
           ++ [SetSelectedObjectId None]) st)
    ids (omap (λ id, instance ≫= λ i, getNode i id) ids).
Proof.
  unfold selects_and_fits; simpl. split; [|repeat split; eauto].
  apply Forall2_fmap_diag. intros n.
  split; [apply same_but_selected_with_selected|].
  unfold Node.is_selected; simpl.
  case_bool_decide; simpl; intuition congruence.
Qed.

(** The guard of the selection effect: a hidden map, no selection or an
    empty id are not handled; the selection stays for a later run. *)
Lemma selection_effect_guard isVisible selectedObjectId instance
    applicationMap :
  isVisible = false ∨ selectedObjectId = None ∨ selectedObjectId = Some "" →
  selectionEffect isVisible selectedObjectId instance applicationMap = [].
Proof.
  intros [->|[->| ->]]; [|done|].
  - by destruct selectedObjectId.
  - unfold selectionEffect. by rewrite orb_true_r.
Qed.

(** C4. The selection effect, on a map that is visible and for a
    selection id that is not empty.  (a) If the renderer has a node with
    that id, exactly the nodes with that id end selected and a deferred
    [fitView] gets that node.  (b) Otherwise, if the id is that of a known
    application, exactly the nodes whose id is one of its member service
    keys end selected and the deferred [fitView] gets those of them the
    renderer has.  (c) Otherwise the effect issues no command, so the
    state is unchanged. *)
Theorem selection_resolution_order
    (selectedObjectId : string) instance
    (applicationMap : gmap string TopologyApplication.t) st :
  selectedObjectId ≠ "" →
  let cmds :=
    selectionEffect true (Some selectedObjectId) instance applicationMap in
  match instance ≫= λ i, getNode i selectedObjectId with
  | Some node =>
      selects_and_fits st (exec cmds st) [selectedObjectId] [node]
  | None =>
      match applicationMap !! selectedObjectId with
      | Some application =>
          let serviceIds :=
            TopologyServiceMinimal.service
              <$> TopologyApplication.services application in
          selects_and_fits st (exec cmds st) serviceIds
            (omap (λ id, instance ≫= λ i, getNode i id) serviceIds)
      | None => cmds = [] ∧ exec cmds st = st
      end
  end.
Proof.
  intros Hne cmds. subst cmds. unfold selectionEffect.
  rewrite (bool_decide_false _ Hne). cbn [negb orb].
  destruct (instance ≫= λ i, getNode i selectedObjectId) as [node|] eqn:Hn.
  - pose proof (highlight_then_fit [selectedObjectId] instance st) as H.
    cbn [omap list_omap] in H. by rewrite Hn in H.
  - destruct (applicationMap !! selectedObjectId) as [application|].
    + apply highlight_then_fit.
    + done.
Qed.

Lemma selection_resolution_order_witness :
  selects_and_fits Sample.state
    (exec (selectionEffect true (Some "payments") (instance Sample.state)
             (applicationMap [Sample.payments])) Sample.state)
    ["payments"] [Sample.node_payments].
Proof.
  apply (selection_resolution_order "payments" (instance Sample.state)
           (applicationMap [Sample.payments]) Sample.state).
  discriminate.
Defined.

(** The three cases of the resolution on the sample map: a rendered node
    wins over an application of the same id; an application that is not
    rendered resolves to its members; an unknown id does nothing. *)
Example selection_sample_node :
  Node.is_selected
    <$> nodes (exec (selectionEffect true (Some "payments")
                       (instance Sample.state)
                       (applicationMap [Sample.payments])) Sample.state)
  = [true; false; false].
Proof. vm_compute. done. Qed.

Example selection_sample_application :
  let unrendered :=
    Some {| rendered := [Sample.node_api; Sample.node_db] |} in
  Node.is_selected
    <$> nodes (exec (selectionEffect true (Some "payments") unrendered
                       (applicationMap [Sample.payments])) Sample.state)
  = [false; true; false].
Proof. vm_compute. done. Qed.

Example selection_sample_unknown :
  selectionEffect true (Some "billing") (instance Sample.state)
    (applicationMap [Sample.payments]) = [].
Proof. vm_compute. done. Qed.

(** C6. Editing a service.  When [is_editable] is false the handler
    issues one command, the error toast: nothing else happens, the modal
    flag and the selected service are as before.  When it is true the
    handler sets the selected service and the modal flag, and the render
    that follows throws on its reference to [topology]: it returns no
    view, so no modal comes up. *)
Theorem edit_of_editable_service_breaks_render service st :
  let cmds := handleEditService service in
  let st' := exec cmds st in
  if TopologyService.is_editable service then
    selectedService st' = Some service
    ∧ isServiceModalOpen st' = true
    ∧ toasts st' = toasts st
    ∧ TopologyView.render false false st'
      = Async.Thrown "ReferenceError: topology is not defined"
  else
    cmds = [ShowErrorToast
              "This service cannot be edited as it is managed by a provider"]
    ∧ toasts st'
      = toasts st
        ++ ["This service cannot be edited as it is managed by a provider"]
    ∧ isServiceModalOpen st' = isServiceModalOpen st
    ∧ selectedService st' = selectedService st.
Proof.
  unfold handleEditService.
  destruct (TopologyService.is_editable service); simpl; auto.
Qed.

(** A render gives the map only while no service is selected, and the
    [ServiceModal] element it contains has no service: the dialog is
    only ever shown for creating. *)
Lemma rendered_service_modal_creates isLoading error st contextMenus
    serviceModal :
  TopologyView.render isLoading error st
  = Async.Normal (TopologyView.Map contextMenus serviceModal) →
  selectedService st = None
  ∧ TopologyView.service serviceModal = None
  ∧ TopologyView.isOpen serviceModal = isServiceModalOpen st.
Proof.
  unfold TopologyView.render.
  destruct isLoading; [done|]. destruct error; [done|].
  destruct (selectedService st) eqn:Hsel; [done|].
  by intros [= _ <-].
Qed.

(** The same holds of the other handler that selects a service. *)
Lemma manage_dependencies_breaks_render service st :
  TopologyView.render false false (exec (handleManageDependencies service) st)
  = Async.Thrown "ReferenceError: topology is not defined".
Proof. done. Qed.

Example edit_sample :
  TopologyView.render false false Sample.state
  = Async.Normal
      (TopologyView.Map [Sample.node_db]
         {| TopologyView.isOpen := false;
            TopologyView.onClose := closeServiceModal;
            TopologyView.onSuccess := handleServiceModalSuccess;
            TopologyView.service := None |})
  ∧ TopologyView.render false false
      (exec (handleEditService Sample.db) Sample.state)
    = TopologyView.render false false Sample.state
  ∧ TopologyView.render false false
      (exec (handleEditService Sample.api) Sample.state)
    = Async.Thrown "ReferenceError: topology is not defined".
Proof. vm_compute. done. Qed.

(** ** The reconciling effect *)
Section ReconcilerFacts.
Context {Incident : Type}.
Variable build :
  list TopologyService.t → gmap string TopologyApplication.t →
  list Incident → list (string * Node.t) * list (string * Edge.t).
Variable layout : list Node.t → list Edge.t → list Node.t * list Edge.t.

(** Whatever the stored ids are, the effect ends by storing what the
    layout returns for the freshly built collections: the last two
    commands are not under the [else]. *)
Lemma refresh_ends_with_layout topologyData applicationMap allIncidents
    previousNodesIds st :
  let built :=
    build topologyData applicationMap (default [] allIncidents) in
  let st' :=
    exec (createAndSetLayoutedNodesAndEdges build layout
            (Some topologyData) applicationMap allIncidents
            previousNodesIds) st in
  nodes st' = (layout built.1.*2 built.2.*2).1
  ∧ edges st' = (layout built.1.*2 built.2.*2).2.
Proof.
  unfold createAndSetLayoutedNodesAndEdges. simpl.
  destruct (build _ _ _) as [nodeMap edgeMap]. simpl.
  rewrite exec_app. done.
Qed.

(** The updater of the STABLE branch, on its own, does what its comment
    says: a stored node keeps its position and takes every other field
    from the new node of the same id. *)
Lemma stable_updater_keeps_position (newNodes prevNodes : list Node.t) :
  Forall2
    (λ n n',
       Node.position n' = Node.position n
       ∧ ∀ newNode,
           find (λ nn, bool_decide (Node.id nn = Node.id n)) newNodes
           = Some newNode →
           n' = Node.with_position (Node.position n) newNode)
    prevNodes
    ((λ n,
        match find (λ nn, bool_decide (Node.id nn = Node.id n))
                   newNodes with
        | Some newNode => Node.with_position (Node.position n) newNode
        | None => n
        end) <$> prevNodes).
Proof.
  apply Forall2_fmap_diag. intros n.
  destruct (find _ newNodes) as [newNode|]; simpl;
    (split; [done|]); by intros ? [= <-].
Qed.
End ReconcilerFacts.

(** C1. A refresh that builds the same node ids as stored (STABLE), on
    the dragged sample map.  The test of the STABLE branch passes and its
    two commands keep the dragged position while taking the new content;
    the effect then goes on to lay the new nodes out and stores that
    result, so the node ends where the layout puts it, not where it was. *)
Theorem stable_refresh_relayouts_dragged_node :
  let st := Sample.dragged in
  let cmds :=
    createAndSetLayoutedNodesAndEdges Sample.build Sample.layout
      (Some [Sample.api_renamed]) ∅ None (previousNodesIds st) in
  bool_decide (0 < size (previousNodesIds st))
  && areSetsEqual (previousNodesIds st)
       (list_to_set (Sample.build [Sample.api_renamed] ∅ []).1.*1)
  = true
  ∧ Node.position <$> nodes st = [{| x := 640; y := 480 |}]
  ∧ Node.position <$> nodes (exec (take 2 cmds) st)
    = [{| x := 640; y := 480 |}]
  ∧ Node.data <$> nodes (exec (take 2 cmds) st)
    = [ServiceData Sample.api_renamed]
  ∧ length cmds = 4
  ∧ Node.position <$> nodes (exec cmds st) = [{| x := 0; y := 0 |}].
Proof. vm_compute. done. Qed.

(** ** When the viewport is fitted *)

(** The selection effect and the first-load fallback only fit through a
    zero-delay timer. *)
Lemma selection_fit_is_deferred isVisible selectedObjectId instance
    applicationMap :
  let cmds :=
    selectionEffect isVisible selectedObjectId instance applicationMap in
  synchronous_fits cmds = [] ∧ fit_after_change false cmds = false.
Proof.
  unfold selectionEffect.
  destruct selectedObjectId as [id|]; [|done].
  destruct (negb isVisible || bool_decide (id = "")); [done|].
  destruct (instance ≫= λ i, getNode i id); [done|].
  by destruct (applicationMap !! id).
Qed.

Lemma fallback_fit_is_deferred isVisible initiallyFitted :
  let cmds := fallbackFitView isVisible initiallyFitted in
  synchronous_fits cmds = [] ∧ fit_after_change false cmds = false.
Proof.
  unfold fallbackFitView.
  by destruct (negb isVisible || initiallyFitted).
Qed.

(** With at least one application selected the filter updates nodes and
    edges and then calls [fitView] itself, not through a timer. *)
Lemma application_filter_fit_is_synchronous applications id ids instance :
  let cmds := watchSelectedApplications applications (id :: ids) instance in
  fit_after_change false cmds = true
  ∧ deferred_fits cmds = []
  ∧ length (synchronous_fits cmds) = 1.
Proof. done. Qed.

(** C2. The application filter on the sample map with "payments"
    selected.  Its [fitView] is a command of the effect itself and comes
    after the node and edge updates; no timer is set.  Run to the end of
    the turn, the one [fitView] call has seen the nodes as they were
    before the filter, while the store then holds the filtered ones. *)
Theorem application_filter_fit_not_deferred :
  let cmds :=
    watchSelectedApplications [Sample.payments] ["payments"]
      (instance Sample.state) in
  let st' := turn cmds Sample.state in
  fit_after_change false cmds = true
  ∧ deferred_fits cmds = []
  ∧ timers (exec cmds Sample.state) = []
  ∧ (fits st').*2 = [Sample.graph]
  ∧ rendered <$> instance st' = Some (nodes st')
  ∧ Node.is_hidden <$> Sample.graph = [false; false; false]
  ∧ Node.is_hidden <$> nodes st' = [false; false; true].
Proof. vm_compute. done. Qed.

End TopologyMapFacts.

(* ================================================================== *)
(** * Requests issued one at a time *)
(* ================================================================== *)

Section AsyncFacts.
Context {Server : Type}.
Variable client : Server → Api.HttpRequest → Server * Api.Outcome.

Abbreviation World := (@Async.World Server).

Lemma for_of_fmap {A} (f : A → Api.Call) (xs : list A) (w : World) :
  Async.for_of xs (λ x, Async.await client (f x)) w
  = Async.for_of (f <$> xs) (Async.await client) w.
Proof.
  revert w. induction xs as [|x xs IH]; intros w; [done|].
  simpl. unfold Async.bind.
  destruct (Async.await client (f x) w) as [[[]|e] w']; [apply IH|done].
Qed.

Lemma for_of_app {A} (body : A → Async.t unit) (xs ys : list A) (w : World) :
  Async.for_of (xs ++ ys) body w
  = Async.bind (Async.for_of xs body) (λ _, Async.for_of ys body) w.
Proof.
  revert w. induction xs as [|x xs IH]; intros w; [done|].
  simpl. unfold Async.bind.
  destruct (body x w) as [[[]|e] w']; [|done].
  rewrite IH. done.
Qed.

Lemma bind_emit {A} (e : Event) (k : unit → Async.t A) (w : World) :
  Async.bind (Async.emit e) k w
  = k tt (Async.mkWorld (Async.server w) (Async.log w ++ [e])).
Proof. reflexivity. Qed.

(** If every call resolves, all are issued, in order, each against the
    backend its predecessor has left. *)
Lemma issue_all_resolve (cs : list Api.Call) (w : World) :
  all_resolve client (Async.server w) cs →
  Async.for_of cs (Async.await client) w
  = (Async.Normal tt,
     Async.mkWorld (after client (Async.server w) cs)
       (Async.log w ++ (Called <$> cs))).
Proof.
  revert w. induction cs as [|c cs IH]; intros w.
  - intros _. simpl. rewrite app_nil_r. by destruct w.
  - intros [Hc Hcs]. simpl. unfold Async.bind, Async.await.
    unfold settle in Hc, Hcs.
    destruct (client (Async.server w) (Api.request c)) as [s o] eqn:Hs.
    simpl in Hc, Hcs. subst o.
    rewrite IH by done. simpl. unfold settle at 1. rewrite Hs. simpl.
    by rewrite <- app_assoc.
Qed.

(** The first rejection stops the loop: the calls before it have been
    issued and stay as the backend took them, the rejected call is the
    last one issued, the rest never is. *)
Lemma issue_until_rejected (pre post : list Api.Call) (c : Api.Call)
    (reason : string) (w : World) :
  all_resolve client (Async.server w) pre →
  (settle client (after client (Async.server w) pre) c).2
  = Api.Rejected reason →
  Async.for_of (pre ++ c :: post) (Async.await client) w
  = (Async.Thrown reason,
     Async.mkWorld (settle client (after client (Async.server w) pre) c).1
       (Async.log w ++ (Called <$> pre ++ [c]))).
Proof.
  intros Hpre Hc. rewrite for_of_app. unfold Async.bind.
  rewrite issue_all_resolve by done. simpl.
  unfold Async.bind, Async.await. simpl. unfold settle in Hc.
  destruct (client (after client (Async.server w) pre) (Api.request c))
    as [s o] eqn:Hs.
  simpl in Hc. subst o. unfold settle. rewrite Hs. simpl.
  by rewrite fmap_app, <- app_assoc.
Qed.

(** In any case what has been issued is a prefix of the list. *)
Lemma issue_prefix (cs : list Api.Call) (w : World) :
  ∃ issued,
    issued `prefix_of` cs
    ∧ Async.log (Async.for_of cs (Async.await client) w).2
      = Async.log w ++ (Called <$> issued).
Proof.
  revert w. induction cs as [|c cs IH]; intros w.
  - exists []. simpl. by rewrite app_nil_r.
  - simpl. unfold Async.bind, Async.await at 1.
    destruct (client (Async.server w) (Api.request c)) as [s [|reason]].
    + destruct (IH (Async.mkWorld s (Async.log w ++ [Called c])))
        as (issued & Hp & Hl).
      exists (c :: issued). split; [by apply prefix_cons|].
      rewrite Hl. simpl. by rewrite <- app_assoc.
    + exists [c]. split; [|done]. apply prefix_cons, prefix_nil.
Qed.
End AsyncFacts.


(* ================================================================== *)
(** * Properties of [DependencyManager] *)
(* ================================================================== *)

Section DependencyManagerFacts.
Context {Server : Type}.
Variable client : Server → Api.HttpRequest → Server * Api.Outcome.
Variable service : TopologyService.t.
Variable existingDependencies : list ServiceId.

Abbreviation World := (@Async.World Server).

(** The two loops of the handler issue the plan. *)
Lemma loops_issue_plan selectedDependencies (rest : Async.t unit)
    (w : World) :
  Async.bind
    (Async.for_of
       (DependencyManager.removedDependencies existingDependencies
          selectedDependencies)
       (λ depId,
          Async.await client
            (Api.deleteDependency (TopologyService.id service) depId)))
    (λ _,
       Async.bind
         (Async.for_of
            (DependencyManager.newDependencies existingDependencies
               selectedDependencies)
            (λ depId,
               Async.await client
                 (Api.createDependency (TopologyService.id service) depId
                    None)))
         (λ _, rest)) w
  = Async.bind
      (Async.for_of (plan service existingDependencies selectedDependencies)
         (Async.await client))
      (λ _, rest) w.
Proof.
  unfold plan, Async.bind.
  rewrite (for_of_app (Async.await client)
             (Api.deleteDependency (TopologyService.id service)
                <$> DependencyManager.removedDependencies
                      existingDependencies selectedDependencies)).
  unfold Async.bind.
  rewrite <- !(for_of_fmap client).
  destruct (Async.for_of
              (DependencyManager.removedDependencies existingDependencies
                 selectedDependencies)
              (λ depId,
                 Async.await client
                   (Api.deleteDependency (TopologyService.id service) depId))
              w) as [[[]|e] w1]; [|done].
  by rewrite (for_of_fmap client).
Qed.

(** The handler, by how its loops end. *)
Lemma handleSubmit_by_outcome onSuccess onClose selectedDependencies
    (w : World) :
  DependencyManager.handleSubmit service existingDependencies client
    onSuccess onClose selectedDependencies w
  = match
      Async.for_of (plan service existingDependencies selectedDependencies)
        (Async.await client)
        (Async.mkWorld (Async.server w)
           (Async.log w ++ [PreventDefault; SetIsLoading true]))
    with
    | (Async.Normal _, w1) =>
        (Async.Normal tt,
         Async.mkWorld (Async.server w1)
           (Async.log w1
            ++ [SuccessToast "Dependencies updated successfully"]
            ++ callbacks_log "Failed to update dependencies:"
                 "Failed to update dependencies. Please try again."
                 onSuccess onClose
            ++ [SetIsLoading false]))
    | (Async.Thrown error, w1) =>
        (Async.Normal tt,
         Async.mkWorld (Async.server w1)
           (Async.log w1
            ++ [ConsoleError "Failed to update dependencies:" error;
                ErrorToast
                  "Failed to update dependencies. Please try again.";
                SetIsLoading false]))
    end.
Proof.
  unfold DependencyManager.handleSubmit, mbind, Async.async_bind.
  rewrite !bind_emit.
  unfold Async.try_catch_finally.
  rewrite loops_issue_plan.
  unfold Async.bind at 1. cbn [Async.server Async.log].
  rewrite <- (app_assoc (Async.log w)).
  change ([PreventDefault] ++ [SetIsLoading true])
    with [PreventDefault; SetIsLoading true].
  destruct (Async.for_of _ (Async.await client) _) as [[[]|error] w1].
  - destruct onSuccess as [|error1], onClose as [|error2];
      cbv [Async.bind Async.emit Async.invoke callbacks_log];
      cbn [Async.server Async.log]; by rewrite <- !app_assoc.
  - rewrite !bind_emit. unfold Async.emit. cbn [Async.server Async.log].
    by rewrite <- !app_assoc.
Qed.

(** C5. Submitting the dependency manager.  The calls to make are the
    deletions of the unselected existing dependencies followed by the
    creations of the newly selected ones.  They are issued in that order,
    each against the backend as the call before has left it.  If all
    resolve, the log goes on with the success toast and the two
    callbacks, as far as they return.  If one is rejected, the calls
    before it stay as the backend took them and nothing undoes them, the
    rejected call is the last one issued, and the log goes on with the
    error toast and without success toast, [onSuccess] or [onClose].
    This holds whatever the two callbacks do. *)
Theorem dependency_batch_is_sequential onSuccess onClose
    selectedDependencies (w : World) :
  let cs := plan service existingDependencies selectedDependencies in
  let w' :=
    (DependencyManager.handleSubmit service existingDependencies client
       onSuccess onClose selectedDependencies w).2 in
  (all_resolve client (Async.server w) cs →
     Async.server w' = after client (Async.server w) cs
     ∧ Async.log w'
       = Async.log w
         ++ [PreventDefault; SetIsLoading true]
         ++ (Called <$> cs)
         ++ [SuccessToast "Dependencies updated successfully"]
         ++ callbacks_log "Failed to update dependencies:"
              "Failed to update dependencies. Please try again."
              onSuccess onClose
         ++ [SetIsLoading false])
  ∧ (∀ pre c post reason,
       cs = pre ++ c :: post →
       all_resolve client (Async.server w) pre →
       (settle client (after client (Async.server w) pre) c).2
       = Api.Rejected reason →
       Async.server w'
       = (settle client (after client (Async.server w) pre) c).1
       ∧ Async.log w'
         = Async.log w
           ++ [PreventDefault; SetIsLoading true]
           ++ (Called <$> pre ++ [c])
           ++ [ConsoleError "Failed to update dependencies:" reason;
               ErrorToast
                 "Failed to update dependencies. Please try again.";
               SetIsLoading false]).
Proof.
  intros cs w'. subst w'. rewrite handleSubmit_by_outcome. fold cs.
  split.
  - intros Hall. rewrite issue_all_resolve by done.
    cbn [snd Async.server Async.log]. by rewrite <- !app_assoc.
  - intros pre c post reason -> Hpre Hc.
    rewrite (issue_until_rejected client pre post c reason) by done.
    cbn [snd Async.server Async.log]. by rewrite <- !app_assoc.
Qed.

Lemma calls_Called (cs : list Api.Call) : calls (Called <$> cs) = cs.
Proof. induction cs as [|c cs IH]; [done|]. simpl. by f_equal. Qed.

Lemma calls_callbacks_log label toast onSuccess onClose :
  calls (callbacks_log label toast onSuccess onClose) = [].
Proof. by destruct onSuccess, onClose. Qed.

(** Whatever the backend answers and the callbacks do, the calls of a
    submission started on an empty log are a prefix of the plan. *)
Lemma handleSubmit_calls_prefix onSuccess onClose selectedDependencies
    (s : Server) :
  calls
    (Async.log
       (DependencyManager.handleSubmit service existingDependencies client
          onSuccess onClose selectedDependencies (Async.mkWorld s [])).2)
  `prefix_of` plan service existingDependencies selectedDependencies.
Proof.
  rewrite handleSubmit_by_outcome.
  destruct (issue_prefix client
              (plan service existingDependencies selectedDependencies)
              (Async.mkWorld s ([] ++ [PreventDefault; SetIsLoading true])))
    as (issued & Hprefix & Hlog).
  destruct (Async.for_of _ (Async.await client) _) as [[[]|error] w1];
    cbn [snd Async.log] in *; rewrite Hlog; unfold calls;
    rewrite !omap_app; fold calls;
    rewrite calls_Called, ?calls_callbacks_log; simpl;
    by rewrite app_nil_r.
Qed.

(** ** Which dependencies can be selected *)

Lemma checkbox_is_another_service availableServices availableService :
  availableService ∈ DependencyManager.checkboxes service availableServices →
  TopologyService.id availableService ≠ TopologyService.id service.
Proof.
  unfold DependencyManager.checkboxes.
  by intros [? _]%list_elem_of_filter.
Qed.
End DependencyManagerFacts.

Section DependencyManagerOverTime.
Context {Server : Type}.
Variable client : Server → Api.HttpRequest → Server * Api.Outcome.

Lemma mount_invariant service availableServices existingDependencies :
  selection_invariant
    (DependencyManager.mount service availableServices
       existingDependencies).
Proof. intros depId ?. by left. Qed.

Lemma step_invariant c e :
  selection_invariant c → selection_invariant (DependencyManager.step c e).
Proof.
  intros Hinv. destruct e as [service available existing|position]; simpl.
  - intros depId ?. by left.
  - destruct (DependencyManager.checkboxes _ _ !! position)
      as [availableService|] eqn:Hbox; [|done].
    apply list_elem_of_lookup_2, checkbox_is_another_service in Hbox.
    unfold selection_invariant, DependencyManager.toggleDependency. simpl.
    case_bool_decide; intros depId.
    + intros [_ ?]%list_elem_of_filter. by apply Hinv.
    + intros [?| ->%list_elem_of_singleton]%elem_of_app;
        [by apply Hinv|by right].
Qed.

Lemma steps_invariant events c :
  selection_invariant c →
  selection_invariant (DependencyManager.steps c events).
Proof.
  revert c. induction events as [|e events IH]; intros c Hinv; [done|].
  simpl. by apply IH, step_invariant.
Qed.

(** C8. No self-dependency from the dependency manager.  The service
    itself gets no check-box.  And whatever the parent renders and the
    user toggles before submitting, and whatever the backend answers and
    the two callbacks do, every dependency the submission creates has the
    service as its source and another service as its target. *)
Theorem no_self_dependency_offered_or_created
    service availableServices existingDependencies :
  (TopologyService.id service
     ∉ TopologyService.id
         <$> DependencyManager.checkboxes service availableServices)
  ∧ ∀ events onSuccess onClose (s : Server) source target protocol,
      let c :=
        DependencyManager.steps
          (DependencyManager.mount service availableServices
             existingDependencies) events in
      Api.createDependency source target protocol
        ∈ calls
            (Async.log
               (DependencyManager.handleSubmit
                  (DependencyManager.service c)
                  (DependencyManager.existingDependencies c) client
                  onSuccess onClose
                  (DependencyManager.selectedDependencies c)
                  (Async.mkWorld s [])).2) →
      source = TopologyService.id (DependencyManager.service c)
      ∧ target ≠ source.
Proof.
  split.
  - intros (availableService & Hid & Hbox)%list_elem_of_fmap.
    by apply checkbox_is_another_service in Hbox.
  - intros events onSuccess onClose s source target protocol c Hcall.
    eapply elem_of_prefix in Hcall; [|apply handleSubmit_calls_prefix].
    unfold plan in Hcall.
    apply elem_of_app in Hcall as [Hdel|Hnew].
    + by apply list_elem_of_fmap in Hdel as (? & ? & _).
    + apply list_elem_of_fmap in Hnew as (depId & [= -> -> ->] & Hnew).
      split; [done|].
      apply list_elem_of_filter in Hnew as [Hfresh Hsel].
      by destruct (steps_invariant events _
                     (mount_invariant service availableServices
                        existingDependencies) depId Hsel).
Qed.

End DependencyManagerOverTime.

(** On the sample backend, "api" (service 1) depends on 2 and 4, and the
    dialog has the callbacks [TopologyMap] passes: an [onSuccess] that
    throws and an [onClose] that returns.  Dropping 2 and adding 5 goes
    through, and the success toast is followed by the error toast.
    Dropping 2 and adding 3 and 5 stops at 3: the deletion of 2 stays, the
    creation of 5 is never issued. *)
Lemma dependency_batch_is_sequential_witness :
  let w1 :=
    (DependencyManager.handleSubmit Sample.api [NumId 2; NumId 4]
       Sample.backend TopologyMap.handleDependencyModalSuccess Returns
       [NumId 4; NumId 5] Sample.world).2 in
  let w2 :=
    (DependencyManager.handleSubmit Sample.api [NumId 2; NumId 4]
       Sample.backend TopologyMap.handleDependencyModalSuccess Returns
       [NumId 4; NumId 3; NumId 5] Sample.world).2 in
  (Async.server w1
   = after Sample.backend []
       [Api.deleteDependency (NumId 1) (NumId 2);
        Api.createDependency (NumId 1) (NumId 5) None]
   ∧ Async.log w1
     = [PreventDefault; SetIsLoading true;
        Called (Api.deleteDependency (NumId 1) (NumId 2));
        Called (Api.createDependency (NumId 1) (NumId 5) None);
        SuccessToast "Dependencies updated successfully";
        OnSuccess;
        ConsoleError "Failed to update dependencies:"
          "ReferenceError: refetchTopology is not defined";
        ErrorToast "Failed to update dependencies. Please try again.";
        SetIsLoading false])
  ∧ (Async.server w2
     = [Api.request (Api.deleteDependency (NumId 1) (NumId 2))]
     ∧ Async.log w2
       = [PreventDefault; SetIsLoading true;
          Called (Api.deleteDependency (NumId 1) (NumId 2));
          Called (Api.createDependency (NumId 1) (NumId 3) None);
          ConsoleError "Failed to update dependencies:" "404";
          ErrorToast "Failed to update dependencies. Please try again.";
          SetIsLoading false]).
Proof.
  split.
  - apply (proj1 (dependency_batch_is_sequential Sample.backend Sample.api
                    [NumId 2; NumId 4]
                    TopologyMap.handleDependencyModalSuccess Returns
                    [NumId 4; NumId 5] Sample.world)).
    vm_compute. done.
  - apply (proj2 (dependency_batch_is_sequential Sample.backend Sample.api
                    [NumId 2; NumId 4]
                    TopologyMap.handleDependencyModalSuccess Returns
                    [NumId 4; NumId 3; NumId 5] Sample.world)
             [Api.deleteDependency (NumId 1) (NumId 2)]
             (Api.createDependency (NumId 1) (NumId 3) None)
             [Api.createDependency (NumId 1) (NumId 5) None]
             "404").
    + reflexivity.
    + vm_compute. done.
    + reflexivity.
Defined.

(** The user ticks the first check-box of "api", the parent renders again,
    which resets the selection, the user ticks the second check-box (the
    cache, service 5) and submits: the one dependency created is 1 -> 5. *)
Lemma no_self_dependency_offered_or_created_witness :
  NumId 1 = TopologyService.id Sample.api ∧ NumId 5 ≠ NumId 1.
Proof.
  apply (proj2 (no_self_dependency_offered_or_created Sample.backend
                  Sample.api [Sample.api; Sample.db; Sample.cache] [])
           [DependencyManager.ToggleCheckbox 0;
            DependencyManager.Render Sample.api
              [Sample.api; Sample.db; Sample.cache] [];
            DependencyManager.ToggleCheckbox 1]
           TopologyMap.handleDependencyModalSuccess Returns
           [] (NumId 1) (NumId 5) None).
  vm_compute. apply list_elem_of_here.
Defined.

Example checkboxes_sample :
  TopologyService.service
    <$> DependencyManager.checkboxes Sample.api
          [Sample.api; Sample.db; Sample.cache]
  = ["db"; "cache"].
Proof. vm_compute. done. Qed.

(* ================================================================== *)
(** * Properties of [ServiceModal] *)
(* ================================================================== *)

Section ServiceModalFacts.
Context {Server : Type}.
Variable client : Server → Api.HttpRequest → Server * Api.Outcome.

Abbreviation World := (@Async.World Server).

(** The handler, by how its one call settles and what the callbacks
    do. *)
Lemma service_handleSubmit_by_outcome onSuccess onClose service formData
    (w : World) :
  ServiceModal.handleSubmit client onSuccess onClose service formData w
  = (Async.Normal tt,
     Async.mkWorld
       (settle client (Async.server w) (submission service formData)).1
       (Async.log w
        ++ [PreventDefault; SetIsLoading true;
            Called (submission service formData)]
        ++ match
             (settle client (Async.server w)
                (submission service formData)).2
           with
           | Api.Resolved =>
               SuccessToast (success_message service)
               :: callbacks_log "Failed to save service:"
                    (error_message service) onSuccess onClose
           | Api.Rejected reason =>
               [ConsoleError "Failed to save service:" reason;
                ErrorToast (error_message service)]
           end
        ++ [SetIsLoading false])).
Proof.
  unfold ServiceModal.handleSubmit, mbind, Async.async_bind, settle.
  destruct service as [service|]; cbn [submission];
    cbv [Async.bind Async.await Async.emit Async.invoke
         Async.try_catch_finally];
    cbn [Async.server Async.log];
    destruct (client (Async.server w) _) as [s [|reason]];
    destruct onSuccess as [|error1], onClose as [|error2];
    cbn [Async.server Async.log fst snd callbacks_log];
    by rewrite <- !app_assoc.
Qed.

Ltac not_in_log :=
  let H := fresh in
  intros H;
  repeat (apply elem_of_cons in H as [H|H]; [discriminate H|]);
  by apply elem_of_nil in H.

(** C7. Submitting the service form, create or update.  The handler
    returns normally either way.  If the call is rejected the handler
    adds the error toast to the log and neither [onSuccess] nor
    [onClose], whatever the callbacks are.  If the call resolves, the
    success toast is followed by the two callbacks as far as they
    return; with the [onSuccess] that [TopologyMap] passes, which throws
    on the undeclared [refetchTopology], the handler goes from
    [onSuccess] to its [catch]: the error toast follows the success
    toast and [onClose] is not invoked. *)
Theorem resolved_submission_skips_onClose onSuccess onClose service
    formData (w : World) :
  let r :=
    ServiceModal.handleSubmit client onSuccess onClose service formData w in
  let r0 :=
    ServiceModal.handleSubmit client TopologyMap.handleServiceModalSuccess
      onClose service formData w in
  r.1 = Async.Normal tt
  ∧ match
      (settle client (Async.server w) (submission service formData)).2
    with
    | Api.Rejected reason =>
        added w r.2
        = [PreventDefault; SetIsLoading true;
           Called (submission service formData);
           ConsoleError "Failed to save service:" reason;
           ErrorToast (error_message service);
           SetIsLoading false]
        ∧ (OnSuccess ∉ added w r.2)
        ∧ (OnClose ∉ added w r.2)
    | Api.Resolved =>
        added w r.2
        = [PreventDefault; SetIsLoading true;
           Called (submission service formData);
           SuccessToast (success_message service)]
          ++ callbacks_log "Failed to save service:"
               (error_message service) onSuccess onClose
          ++ [SetIsLoading false]
        ∧ added w r0.2
          = [PreventDefault; SetIsLoading true;
             Called (submission service formData);
             SuccessToast (success_message service);
             OnSuccess;
             ConsoleError "Failed to save service:"
               "ReferenceError: refetchTopology is not defined";
             ErrorToast (error_message service);
             SetIsLoading false]
        ∧ (OnClose ∉ added w r0.2)
    end.
Proof.
  intros r r0. subst r r0. rewrite !service_handleSubmit_by_outcome.
  split; [done|].
  unfold added. cbn [snd Async.log]. rewrite !drop_app_length.
  destruct (settle client _ _).2 as [|reason].
  - split; [done|]. split; [done|].
    cbn [TopologyMap.handleServiceModalSuccess callbacks_log app].
    not_in_log.
  - split; [done|]. split; not_in_log.
Qed.

(** C9. A create form whose service name is empty does not get past the
    submit button: the handler does not run, nothing is logged, no
    request is issued. *)
Theorem empty_service_name_is_rejected onSuccess onClose formData
    (w : World) :
  FormData.service formData = "" →
  ServiceModal.clickSubmit client onSuccess onClose None formData w
  = (Async.Normal tt, w).
Proof.
  intros Hempty. unfold ServiceModal.clickSubmit, ServiceModal.inputs.
  cbn [existsb]. unfold ServiceModal.value_missing at 1.
  cbn [ServiceModal.required ServiceModal.disabled ServiceModal.value].
  rewrite Hempty. reflexivity.
Qed.

(** The gate lets a form through that has its three required texts. *)
Lemma complete_form_is_submitted onSuccess onClose service formData
    (w : World) :
  FormData.service formData ≠ "" →
  FormData.display_name formData ≠ "" →
  FormData.environment formData ≠ "" →
  ServiceModal.clickSubmit client onSuccess onClose service formData w
  = ServiceModal.handleSubmit client onSuccess onClose service formData w.
Proof.
  intros Hs Hd He. unfold ServiceModal.clickSubmit, ServiceModal.inputs.
  cbn [existsb]. unfold ServiceModal.value_missing.
  cbn [ServiceModal.required ServiceModal.disabled ServiceModal.value
       default andb orb negb].
  rewrite (bool_decide_false _ Hs), (bool_decide_false _ Hd),
    (bool_decide_false _ He), !andb_false_r.
  reflexivity.
Qed.

(** ** The form state over time *)

Lemma onChange_keeps_environment field value formData :
  field ≠ ServiceModal.Field.environment →
  FormData.environment (ServiceModal.onChange field value formData)
  = FormData.environment formData.
Proof. by destruct formData, field. Qed.

(** As long as no service is handed to the dialog and the environment
    input is left alone, the dialog stays in create mode with the
    environment it had. *)
Lemma create_mode_step c e :
  ServiceModal.props_service c = None →
  ServiceModal.edits_environment e = false →
  ServiceModal.shows_existing_service e = false →
  let c' := ServiceModal.step c e in
  ServiceModal.props_service c' = None
  ∧ FormData.environment (ServiceModal.formData c')
    = FormData.environment (ServiceModal.formData c).
Proof.
  intros Hcreate Hedit Hshow.
  destruct e as [[service|]|field value]; [done|done|]. simpl.
  rewrite Hcreate. rewrite andb_false_r. simpl.
  split; [done|]. apply onChange_keeps_environment.
  by destruct field.
Qed.

Lemma create_mode_steps events c :
  ServiceModal.props_service c = None →
  Forall
    (λ e, ServiceModal.edits_environment e = false
          ∧ ServiceModal.shows_existing_service e = false) events →
  let c' := ServiceModal.steps c events in
  ServiceModal.props_service c' = None
  ∧ FormData.environment (ServiceModal.formData c')
    = FormData.environment (ServiceModal.formData c).
Proof.
  intros Hcreate Hevents. revert c Hcreate.
  induction Hevents as [|e events [Hedit Hshow] _ IH]; intros c Hcreate;
    [done|].
  destruct (create_mode_step c e Hcreate Hedit Hshow) as [Hc' <-].
  by apply IH.
Qed.

(** What [TopologyMap] hands to the dialog.  Every render that produces
    the dialog passes it no service. *)
Lemma rendered_dialog_shows_no_existing_service isLoading error st
    contextMenus serviceModal :
  TopologyView.render isLoading error st
  = Async.Normal (TopologyView.Map contextMenus serviceModal) →
  ServiceModal.shows_existing_service
    (ServiceModal.ServiceProp (TopologyView.service serviceModal))
  = false.
Proof.
  unfold TopologyView.render.
  destruct isLoading; [done|]. destruct error; [done|].
  destruct (TopologyMap.selectedService st); [done|].
  by intros [= _ <-].
Qed.

(** C10. The dialog opened in create mode: it is mounted without a
    service and is handed none afterwards, which is all [TopologyMap]
    ever hands it.  If its environment input is never changed, whatever
    else is typed, it is in create mode with environment "production",
    and its submission issues one call, whatever the backend answers and
    the callbacks do: the creation of a service with the form state as it
    is. *)
Theorem fresh_create_sends_production onSuccess onClose events
    (w : World) :
  Forall
    (λ e, ServiceModal.edits_environment e = false
          ∧ ServiceModal.shows_existing_service e = false) events →
  let c := ServiceModal.steps (ServiceModal.mount None) events in
  let w' :=
    (ServiceModal.handleSubmit client onSuccess onClose
       (ServiceModal.props_service c) (ServiceModal.formData c) w).2 in
  ServiceModal.props_service c = None
  ∧ FormData.environment (ServiceModal.formData c) = "production"
  ∧ calls (added w w') = [Api.createService (ServiceModal.formData c)].
Proof.
  intros Hevents c w'. subst w'.
  destruct (create_mode_steps events (ServiceModal.mount None) eq_refl
              Hevents) as [Hcreate Henv].
  fold c in Hcreate, Henv. split; [done|]. split; [done|].
  rewrite service_handleSubmit_by_outcome, Hcreate.
  unfold added. cbn [snd Async.log submission]. rewrite drop_app_length.
  destruct (settle client _ _).2; [|done].
  by destruct onSuccess, onClose.
Qed.

End ServiceModalFacts.

(** Creating "legacy" is rejected by the sample backend, creating "billing"
    is accepted.  With callbacks that return, as the mocks of the test
    file do, the accepted creation ends with [onSuccess] and [onClose];
    with the [onSuccess] of [TopologyMap] it ends with the error toast. *)
Example service_submission_sample :
  let legacy :=
    ServiceModal.onChange ServiceModal.Field.service "legacy"
      ServiceModal.initialFormData in
  let billing :=
    ServiceModal.onChange ServiceModal.Field.service "billing"
      ServiceModal.initialFormData in
  Async.log (ServiceModal.handleSubmit Sample.backend Returns Returns None
               legacy Sample.world).2
  = [PreventDefault; SetIsLoading true; Called (Api.createService legacy);
     ConsoleError "Failed to save service:" "409";
     ErrorToast "Failed to create service. Please try again.";
     SetIsLoading false]
  ∧ Async.log (ServiceModal.handleSubmit Sample.backend Returns Returns None
                 billing Sample.world).2
    = [PreventDefault; SetIsLoading true; Called (Api.createService billing);
       SuccessToast "Service created successfully"; OnSuccess; OnClose;
       SetIsLoading false]
  ∧ Async.log (ServiceModal.handleSubmit Sample.backend
                 TopologyMap.handleServiceModalSuccess Returns None
                 billing Sample.world).2
    = [PreventDefault; SetIsLoading true; Called (Api.createService billing);
       SuccessToast "Service created successfully"; OnSuccess;
       ConsoleError "Failed to save service:"
         "ReferenceError: refetchTopology is not defined";
       ErrorToast "Failed to create service. Please try again.";
       SetIsLoading false].
Proof. vm_compute. done. Qed.

(** Only the display name is typed. *)
Lemma empty_service_name_is_rejected_witness :
  ServiceModal.clickSubmit Sample.backend
    TopologyMap.handleServiceModalSuccess Returns None
    (ServiceModal.onChange ServiceModal.Field.display_name "New Service"
       ServiceModal.initialFormData)
    Sample.world
  = (Async.Normal tt, Sample.world).
Proof.
  apply (empty_service_name_is_rejected Sample.backend
           TopologyMap.handleServiceModalSuccess Returns
           (ServiceModal.onChange ServiceModal.Field.display_name
              "New Service" ServiceModal.initialFormData)
           Sample.world).
  reflexivity.
Defined.

(** [TopologyMap] renders, the user asks for a new service, and
    [TopologyMap] renders again; name and display name are typed, the
    environment is left alone. *)
Lemma fresh_create_sends_production_witness :
  let st := TopologyMap.exec TopologyMap.handleCreateService Sample.state in
  let prop :=
    match TopologyView.render false false st with
    | Async.Normal (TopologyView.Map _ serviceModal) =>
        TopologyView.service serviceModal
    | _ => Some Sample.worker
    end in
  let events :=
    [ServiceModal.ServiceProp prop;
     ServiceModal.Change ServiceModal.Field.service "billing";
     ServiceModal.Change ServiceModal.Field.display_name "Billing"] in
  let c := ServiceModal.steps (ServiceModal.mount None) events in
  let w' :=
    (ServiceModal.handleSubmit Sample.backend
       TopologyMap.handleServiceModalSuccess Returns
       (ServiceModal.props_service c) (ServiceModal.formData c)
       Sample.world).2 in
  ServiceModal.props_service c = None
  ∧ FormData.environment (ServiceModal.formData c) = "production"
  ∧ calls (added Sample.world w')
    = [Api.createService (ServiceModal.formData c)].
Proof.
  apply (fresh_create_sends_production Sample.backend
           TopologyMap.handleServiceModalSuccess Returns
           [ServiceModal.ServiceProp
              match
                TopologyView.render false false
                  (TopologyMap.exec TopologyMap.handleCreateService
                     Sample.state)
              with
              | Async.Normal (TopologyView.Map _ serviceModal) =>
                  TopologyView.service serviceModal
              | _ => Some Sample.worker
              end;
            ServiceModal.Change ServiceModal.Field.service "billing";
            ServiceModal.Change ServiceModal.Field.display_name "Billing"]
           Sample.world).
  repeat constructor.
Defined.

(* ================================================================== *)
(** * Further properties of [TopologyMap] *)
(* ================================================================== *)

Section ListFacts.
Context {A : Type} (P : A → Prop) `{∀ x, Decision (P x)}.

Lemma filter_all (l : list A) : Forall P l → filter P l = l.
Proof.
  induction l as [|a l IH]; [done|].
  intros [Ha Hl]%Forall_cons. rewrite filter_cons_True by done.
  f_equal. by apply IH.
Qed.

Lemma filter_none' (l : list A) : Forall (λ x, ¬ P x) l → filter P l = [].
Proof.
  induction l as [|a l IH]; [done|].
  intros [Ha Hl]%Forall_cons. rewrite filter_cons_False by done.
  by apply IH.
Qed.
End ListFacts.

Section TopologyMapMore.
Import TopologyMap.

Lemma applicationMap_snoc applications app :
  applicationMap (applications ++ [app])
  = <[TopologyApplication.id app := app]> (applicationMap applications).
Proof. unfold applicationMap. by rewrite foldl_app. Qed.

Lemma applicationMap_lookup applications id :
  applicationMap applications !! id
  = last (filter (λ app, TopologyApplication.id app = id) applications).
Proof.
  induction applications as [|app applications IH] using rev_ind; [done|].
  rewrite applicationMap_snoc, filter_app, lookup_insert.
  rewrite filter_cons, filter_nil. case_decide as Hid.
  - by rewrite last_snoc.
  - by rewrite app_nil_r.
Qed.

Lemma applicationMap_lookup_Some applications id application :
  applicationMap applications !! id = Some application →
  application ∈ applications ∧ TopologyApplication.id application = id.
Proof.
  rewrite applicationMap_lookup. intros Hlast.
  apply last_Some in Hlast as [l Hl].
  assert (application ∈ filter (λ app, TopologyApplication.id app = id)
            applications) as Hin
    by (rewrite Hl; apply elem_of_app; right; apply list_elem_of_here).
  apply list_elem_of_filter in Hin. tauto.
Qed.

(** X1. The application map answers an id with the last application of
    the list that carries it: an application of the list, with that id;
    it has no answer exactly when no application carries the id. *)
Theorem applicationMap_lookup_last applications id :
  applicationMap applications !! id
  = last (filter (λ app, TopologyApplication.id app = id) applications)
  ∧ (∀ application,
       applicationMap applications !! id = Some application →
       application ∈ applications
       ∧ TopologyApplication.id application = id)
  ∧ (applicationMap applications !! id = None
     ↔ id ∉ TopologyApplication.id <$> applications).
Proof.
  split; [apply applicationMap_lookup|].
  split; [apply applicationMap_lookup_Some|].
  rewrite applicationMap_lookup, last_None, list_elem_of_fmap. split.
  - intros Hnil (app & -> & Hin).
    assert (app ∈ filter (λ app', TopologyApplication.id app'
                                  = TopologyApplication.id app)
              applications) as Hf by (by apply list_elem_of_filter).
    rewrite Hnil in Hf. by apply elem_of_nil in Hf.
  - intros Hnone. apply filter_none', Forall_forall.
    intros app Hin Hid. apply Hnone. by exists app.
Qed.

Lemma applicationMap_lookup_last_witness :
  Sample.payments ∈ [Sample.payments]
  ∧ TopologyApplication.id Sample.payments = "payments".
Proof.
  apply (proj1 (proj2 (applicationMap_lookup_last [Sample.payments]
                         "payments")) Sample.payments).
  reflexivity.
Defined.

(** X2. Picking an application in the search box.  An id the map does
    not know changes nothing.  A known one becomes the selected object;
    when the map is visible and no node is rendered under that id, the
    selection effect then selects exactly the nodes of the member
    services of the application, defers the fit to those that are
    rendered, and clears the selected object. *)
Theorem search_pick_of_application applications id name instance st :
  let map := applicationMap applications in
  let picked :=
    exec (handleSelectFromSearch map (ApplicationValue id name)) st in
  match map !! id with
  | None => picked = st
  | Some application =>
      selectedObjectId picked = Some id
      ∧ (id ≠ "" →
         instance ≫= (λ i, getNode i id) = None →
         let serviceIds :=
           TopologyServiceMinimal.service
             <$> TopologyApplication.services application in
         let st' :=
           exec (selectionEffect true (selectedObjectId picked) instance map)
             picked in
         selects_and_fits picked st' serviceIds
           (omap (λ id, instance ≫= λ i, getNode i id) serviceIds)
         ∧ selectedObjectId st' = None)
  end.
Proof.
  intros map picked. subst picked. unfold handleSelectFromSearch.
  destruct (map !! id) as [application|] eqn:Hmap; [|done].
  apply applicationMap_lookup_Some in Hmap as Hid. destruct Hid as [_ Hid].
  rewrite Hid. split; [done|]. intros Hne Hnode.
  cbn [exec foldl exec1 selectedObjectId].
  unfold selectionEffect. rewrite (bool_decide_false _ Hne).
  cbn [negb orb]. rewrite Hnode, Hmap.
  split; [apply highlight_then_fit|done].
Qed.

Lemma search_pick_of_application_witness :
  let unrendered :=
    Some {| rendered := [Sample.node_api; Sample.node_db] |} in
  let picked :=
    exec (handleSelectFromSearch (applicationMap [Sample.payments])
            (ApplicationValue "payments" "Payments")) Sample.state in
  let st' :=
    exec (selectionEffect true (selectedObjectId picked) unrendered
            (applicationMap [Sample.payments])) picked in
  selects_and_fits picked st' ["api"] [Sample.node_api]
  ∧ selectedObjectId st' = None.
Proof.
  apply (proj2 (search_pick_of_application [Sample.payments] "payments"
                  "Payments"
                  (Some {| rendered := [Sample.node_api; Sample.node_db] |})
                  Sample.state));
    [discriminate|reflexivity].
Defined.

(** X3. The selection effect clears the selected object exactly when it
    resolves it, and a cleared selection makes every later run of the
    effect a no-op.  A selection it does not resolve (hidden map, unknown
    id) stays as it is and no command is issued. *)
Theorem selection_effect_clears_what_it_resolves
    isVisible selectedObjectId instance applicationMap st :
  let cmds :=
    selectionEffect isVisible selectedObjectId instance applicationMap in
  if resolves isVisible selectedObjectId instance applicationMap then
    TopologyMap.selectedObjectId (exec cmds st) = None
    ∧ ∀ isVisible' instance' applicationMap',
        selectionEffect isVisible'
          (TopologyMap.selectedObjectId (exec cmds st))
          instance' applicationMap' = []
  else cmds = [].
Proof.
  unfold resolves, selectionEffect.
  destruct selectedObjectId as [id|]; [|done].
  destruct isVisible; [|done]. cbn [negb orb andb].
  destruct (bool_decide (id = "")); [done|]. cbn [negb andb].
  destruct (instance ≫= λ i, getNode i id) as [node|].
  - rewrite (bool_decide_true (is_Some (Some node))) by eauto. done.
  - rewrite (bool_decide_false (is_Some None))
      by (by intros [? ?]).
    cbn [orb].
    destruct (applicationMap !! id) as [application|].
    + rewrite bool_decide_true by eauto. done.
    + rewrite bool_decide_false by (by intros [? ?]). done.
Qed.

(** X4. A highlight replaces the one before it, and highlighting no id
    deselects every node. *)
Theorem highlight_replaces_highlight before nodeIds st :
  nodes (exec (highlightNodes nodeIds) (exec (highlightNodes before) st))
  = nodes (exec (highlightNodes nodeIds) st)
  ∧ Forall (λ n, Node.selected n = Some false)
      (nodes (exec (highlightNodes []) st)).
Proof.
  simpl. split.
  - rewrite <- list_fmap_compose. by apply list_fmap_ext.
  - apply Forall_fmap, Forall_forall. by intros n _.
Qed.

(** The application filter, as a function of the state before it. *)
Lemma filter_by_applications_graph applications selectedApplicationIds
    instance st :
  let st' :=
    exec (watchSelectedApplications applications selectedApplicationIds
            instance) st in
  nodes st'
  = (λ n, Node.with_hidden
            (node_hidden_by applications selectedApplicationIds n) n)
    <$> nodes st
  ∧ edges st'
    = (λ e, Edge.with_hidden
              (edge_hidden_by applications selectedApplicationIds e) e)
      <$> edges st.
Proof.
  unfold watchSelectedApplications, node_hidden_by, edge_hidden_by.
  destruct selectedApplicationIds as [|id ids]; [done|].
  rewrite bool_decide_false by done. cbv zeta.
  rewrite !exec_cons. change (exec [] ?s) with s.
  by rewrite nodes_exec1_FitView, edges_exec1_FitView.
Qed.

(** X5. The application filter does not accumulate: filtering by one
    selection and then by another leaves nodes and edges exactly as
    filtering by the second alone.  In particular an emptied selection
    brings back whatever an earlier one had hidden. *)
Theorem filter_by_applications_overrides
    applications1 selected1 instance1 applications2 selected2 instance2 st :
  let first :=
    exec (watchSelectedApplications applications1 selected1 instance1) st in
  nodes (exec (watchSelectedApplications applications2 selected2 instance2)
           first)
  = nodes (exec (watchSelectedApplications applications2 selected2
                   instance2) st)
  ∧ edges (exec (watchSelectedApplications applications2 selected2
                   instance2) first)
    = edges (exec (watchSelectedApplications applications2 selected2
                     instance2) st).
Proof.
  intros first. subst first.
  destruct (filter_by_applications_graph applications2 selected2 instance2
              (exec (watchSelectedApplications applications1 selected1
                       instance1) st)) as [-> ->].
  destruct (filter_by_applications_graph applications2 selected2 instance2
              st) as [-> ->].
  destruct (filter_by_applications_graph applications1 selected1 instance1
              st) as [-> ->].
  rewrite <- !list_fmap_compose. split; by apply list_fmap_ext.
Qed.

(** X6. The fallback fit.  While the map is not visible it does nothing.
    Once it is, it queues one deferred fit and sets [initiallyFitted],
    after which no run of it issues anything again. *)
Theorem fallback_fit_runs_once isVisible st :
  let cmds := fallbackFitView isVisible (initiallyFitted st) in
  let st' := exec cmds st in
  if isVisible then
    initiallyFitted st' = true
    ∧ (∀ isVisible', fallbackFitView isVisible' (initiallyFitted st') = [])
    ∧ (if initiallyFitted st then timers st' = timers st
       else timers st'
            = timers st ++ [[FitView defaultFitViewOptions]])
  else cmds = [].
Proof.
  unfold fallbackFitView.
  destruct isVisible; [|done]. cbn [negb orb].
  destruct (initiallyFitted st) eqn:Hfit; simpl.
  - rewrite Hfit. split; [done|]. split; [|done].
    intros v. by rewrite orb_true_r.
  - split; [done|]. split; [|done]. intros v. by rewrite orb_true_r.
Qed.

(** X9. A click on a node never raises the "cannot be edited" toast.  On
    an editable service it sets [selectedService] to that service and
    the flag [isServiceModalOpen], and nothing else; the render of
    [TopologyMap] that follows throws on the undeclared [topology], so no
    dialog is shown.  On anything else the click changes nothing. *)
Theorem node_click_never_toasts node st :
  let st' := exec (onNodeClick node) st in
  toasts st' = toasts st
  ∧ match Node.data node with
    | ServiceData service =>
        if TopologyService.is_editable service
        then st'
             = mkState (nodes st) (edges st) (selectedObjectId st)
                 (initiallyFitted st) (previousNodesIds st) (Some service)
                 true (isDependencyModalOpen st) (instance st) (timers st)
                 (fits st) (toasts st)
             ∧ TopologyView.render false false st'
               = Async.Thrown "ReferenceError: topology is not defined"
        else st' = st
    | ApplicationData _ => st' = st
    end.
Proof.
  unfold onNodeClick, handleEditService.
  destruct (Node.data node) as [service|application]; [|done].
  by destruct (TopologyService.is_editable service).
Qed.

Section ReconcilerMore.
Context {Incident : Type}.
Variable build :
  list TopologyService.t → gmap string TopologyApplication.t →
  list Incident → list (string * Node.t) * list (string * Edge.t).
Variable layout : list Node.t → list Edge.t → list Node.t * list Edge.t.

(** X7. After a refresh that has data, the stored id set is the set of
    the node ids just built, whichever branch was taken; without data
    the effect issues nothing. *)
Theorem refresh_records_built_ids topologyData applicationMap
    allIncidents st :
  previousNodesIds
    (exec (createAndSetLayoutedNodesAndEdges build layout
             (Some topologyData) applicationMap allIncidents
             (previousNodesIds st)) st)
  = list_to_set
      (build topologyData applicationMap (default [] allIncidents)).1.*1
  ∧ createAndSetLayoutedNodesAndEdges build layout None applicationMap
      allIncidents (previousNodesIds st) = [].
Proof.
  split; [|done]. unfold createAndSetLayoutedNodesAndEdges.
  destruct (build _ _ _) as [nodeMap edgeMap]. rewrite exec_app.
  cbn [fst]. unfold areSetsEqual.
  destruct (bool_decide (0 < size (previousNodesIds st))); cbn [andb];
    [case_bool_decide as Hsame|]; simpl; congruence.
Qed.
End ReconcilerMore.

Lemma NoDup_new_Set_acc (xs acc : list string) :
  NoDup acc →
  NoDup (foldl (λ set x, if bool_decide (x ∈ set) then set else set ++ [x])
           acc xs).
Proof.
  revert acc. induction xs as [|x xs IH]; intros acc Hacc; [done|]. simpl.
  apply IH. case_bool_decide as Hx; [done|].
  apply NoDup_app. split; [done|]. split; [|apply NoDup_singleton].
  by intros y Hy ->%list_elem_of_singleton.
Qed.

Lemma NoDup_new_Set (xs : list string) : NoDup (new_Set xs).
Proof. apply NoDup_new_Set_acc. constructor. Qed.

Lemma getNode_Some instance id n :
  getNode instance id = Some n → n ∈ rendered instance ∧ Node.id n = id.
Proof.
  unfold getNode. intros [Hin Hid]%find_some.
  split; [by apply list_elem_of_In|]. by apply bool_decide_eq_true in Hid.
Qed.

Lemma ids_of_rendered_sublist instance (ids : list string) :
  Node.id <$> omap (λ id, instance ≫= λ i, getNode i id) ids
  `sublist_of` ids.
Proof.
  induction ids as [|id ids IH]; [done|]. simpl.
  destruct (instance ≫= λ i, getNode i id) as [n|] eqn:Hn.
  - destruct instance as [i|]; [|done]. simpl in Hn.
    apply getNode_Some in Hn as [_ <-]. simpl. by apply sublist_skip.
  - by apply sublist_cons.
Qed.

(** X10. What the application filter fits the view to.  With at least
    one application selected and the renderer's instance in the ref, the
    effect makes one [fitView] call, against the nodes the renderer holds
    at that moment; the nodes it passes are rendered nodes of member
    services of the selected applications, each at most once (also when a
    service belongs to several of them), and every rendered member
    service is among them.  With the ref not yet set it makes no
    call. *)
Theorem application_filter_fits_members_once applications id ids st :
  let selected := id :: ids in
  let st' :=
    exec (watchSelectedApplications applications selected (instance st))
      st in
  match instance st with
  | None => fits st' = fits st
  | Some i =>
      ∃ opts fitted,
        fits st' = fits st ++ [(opts, rendered i)]
        ∧ fit_nodes opts = Some fitted
        ∧ NoDup (Node.id <$> fitted)
        ∧ (∀ n, n ∈ fitted ↔
                member_of_selected applications selected (Node.id n)
                ∧ getNode i (Node.id n) = Some n)
  end.
Proof.
  intros selected st'. subst st'.
  unfold watchSelectedApplications. cbn [length bool_decide decide_rel].
  rewrite bool_decide_false by done.
  rewrite !exec_cons. cbn [exec foldl].
  destruct (instance st) as [i|] eqn:Hinstance.
  - eexists _, _. split; [simpl; rewrite Hinstance; reflexivity|].
    split; [reflexivity|]. split.
    + eapply sublist_NoDup;
        [apply NoDup_new_Set|apply (ids_of_rendered_sublist (Some i))].
    + intros n. rewrite list_elem_of_omap. split.
      * intros (s & Hs & Hn). simpl in Hn.
        assert (Node.id n = s) as <-
          by (by apply getNode_Some in Hn as [_ ?]).
        split; [|done]. by apply elem_of_selectedServiceNodesIds.
      * intros [Hmember Hn]. exists (Node.id n).
        split; [|done]. by apply elem_of_selectedServiceNodesIds.
  - simpl. by rewrite Hinstance.
Qed.

End TopologyMapMore.

(* ================================================================== *)
(** * Further properties of [DependencyManager] *)
(* ================================================================== *)

Section DependencyManagerMore.
Context {Server : Type}.
Variable client : Server → Api.HttpRequest → Server * Api.Outcome.

Lemma toggle_NoDup serviceId prev :
  NoDup prev → NoDup (DependencyManager.toggleDependency serviceId prev).
Proof.
  unfold DependencyManager.toggleDependency.
  intros Hdup. case_bool_decide as Hin.
  - by apply NoDup_filter.
  - apply NoDup_app. split; [done|]. split; [|apply NoDup_singleton].
    by intros id ? ->%list_elem_of_singleton.
Qed.

(** X11. Toggling an id flips its membership in the selection and leaves
    that of every other id alone; a selection without repetition stays
    without repetition. *)
Theorem toggle_flips_membership serviceId prev :
  (∀ id,
     id ∈ DependencyManager.toggleDependency serviceId prev
     ↔ if decide (id = serviceId) then id ∉ prev else id ∈ prev)
  ∧ (NoDup prev → NoDup (DependencyManager.toggleDependency serviceId prev)).
Proof.
  unfold DependencyManager.toggleDependency. split.
  - intros id. case_bool_decide as Hin; case_decide as Hid; subst.
    + rewrite list_elem_of_filter. tauto.
    + rewrite list_elem_of_filter. tauto.
    + rewrite elem_of_app, list_elem_of_singleton. tauto.
    + rewrite elem_of_app, list_elem_of_singleton. tauto.
  - unfold DependencyManager.toggleDependency in *. apply toggle_NoDup.
Qed.

(** X12. Ticking a box and unticking it gives back the selection as it
    was; unticking and ticking again gives back the same ids, the
    toggled one moved to the end. *)
Theorem toggle_twice serviceId prev :
  let twice :=
    DependencyManager.toggleDependency serviceId
      (DependencyManager.toggleDependency serviceId prev) in
  (serviceId ∉ prev → twice = prev)
  ∧ (serviceId ∈ prev →
     twice = filter (λ id, id ≠ serviceId) prev ++ [serviceId]).
Proof.
  unfold DependencyManager.toggleDependency. split; intros Hin.
  - rewrite (bool_decide_false _ Hin).
    rewrite bool_decide_true
      by (apply elem_of_app; right; apply list_elem_of_here).
    rewrite filter_app, filter_cons_False, filter_nil, app_nil_r
      by (by intros ?).
    apply filter_all, Forall_forall. by intros id ? ->.
  - rewrite (bool_decide_true _ Hin).
    rewrite bool_decide_false; [done|].
    by intros [? _]%list_elem_of_filter.
Qed.

(** X13. The two lists of a submission turn the existing dependencies
    into the selected ones: an id is selected exactly when it stays
    (existing and not removed) or is new.  No id is both removed and
    new. *)
Theorem removals_and_additions_reconcile existingDependencies
    selectedDependencies depId :
  let removed :=
    DependencyManager.removedDependencies existingDependencies
      selectedDependencies in
  let new :=
    DependencyManager.newDependencies existingDependencies
      selectedDependencies in
  (depId ∈ selectedDependencies
   ↔ (depId ∈ existingDependencies ∧ depId ∉ removed) ∨ depId ∈ new)
  ∧ ¬ (depId ∈ removed ∧ depId ∈ new).
Proof.
  unfold DependencyManager.removedDependencies,
    DependencyManager.newDependencies. cbv zeta.
  rewrite !list_elem_of_filter.
  destruct (decide (depId ∈ existingDependencies)),
    (decide (depId ∈ selectedDependencies)); tauto.
Qed.



(** X15. A submission only issues changes: whatever the backend answers
    and the callbacks do, each call is the deletion of an existing dependency that is no longer
    selected or the creation of a selected one that does not exist yet,
    both from the managed service. *)
Theorem submission_calls_are_the_changes service existingDependencies
    onSuccess onClose selectedDependencies (s : Server) c :
  c ∈ calls
        (Async.log
           (DependencyManager.handleSubmit service existingDependencies
              client onSuccess onClose selectedDependencies
              (Async.mkWorld s [])).2) →
  (∃ target,
     c = Api.deleteDependency (TopologyService.id service) target
     ∧ target ∈ existingDependencies ∧ target ∉ selectedDependencies)
  ∨ (∃ target,
       c = Api.createDependency (TopologyService.id service) target None
       ∧ target ∈ selectedDependencies ∧ target ∉ existingDependencies).
Proof.
  intros Hc.
  eapply elem_of_prefix in Hc; [|apply handleSubmit_calls_prefix].
  unfold plan in Hc. apply elem_of_app in Hc as [Hdel|Hnew].
  - apply list_elem_of_fmap in Hdel as (target & -> & Hin).
    apply list_elem_of_filter in Hin. left. exists target. tauto.
  - apply list_elem_of_fmap in Hnew as (target & -> & Hin).
    apply list_elem_of_filter in Hin. right. exists target. tauto.
Qed.

(** X16. A selection that holds the same ids as the existing
    dependencies is submitted without any request: the backend is left
    alone.  The dialog still shows the success toast and calls
    [onSuccess], and [onClose] if that returns; if a callback throws,
    the logged error and the error toast follow. *)
Theorem unchanged_selection_issues_nothing service existingDependencies
    onSuccess onClose selectedDependencies (w : @Async.World Server) :
  (∀ depId, depId ∈ existingDependencies ↔ depId ∈ selectedDependencies) →
  let w' :=
    (DependencyManager.handleSubmit service existingDependencies client
       onSuccess onClose selectedDependencies w).2 in
  Async.server w' = Async.server w
  ∧ calls (added w w') = []
  ∧ added w w'
    = [PreventDefault; SetIsLoading true;
       SuccessToast "Dependencies updated successfully"]
      ++ callbacks_log "Failed to update dependencies:"
           "Failed to update dependencies. Please try again."
           onSuccess onClose
      ++ [SetIsLoading false].
Proof.
  intros Hsame w'. subst w'. rewrite handleSubmit_by_outcome.
  assert (plan service existingDependencies selectedDependencies = [])
    as ->.
  { unfold plan, DependencyManager.removedDependencies,
      DependencyManager.newDependencies.
    rewrite !filter_none'; [done| |]; apply Forall_forall;
      intros depId Hin Hnot; apply Hnot; by apply Hsame. }
  cbn [Async.for_of Async.ret snd Async.server Async.log].
  unfold added. cbn [Async.log].
  rewrite <- !app_assoc, drop_app_length.
  split; [done|]. split; [|done]. by destruct onSuccess, onClose.
Qed.

(** ** No call twice *)

Lemma mount_distinct service availableServices existingDependencies :
  NoDup existingDependencies →
  distinct_dependencies
    (DependencyManager.mount service availableServices
       existingDependencies).
Proof. by split. Qed.

Lemma step_distinct c e :
  renders_distinct e →
  distinct_dependencies c →
  distinct_dependencies (DependencyManager.step c e).
Proof.
  intros He [Hex Hsel].
  destruct e as [service available existing|position]; simpl; [by split|].
  destruct (DependencyManager.checkboxes _ _ !! position); [|by split].
  split; [done|]. by apply toggle_NoDup.
Qed.

Lemma steps_distinct events c :
  Forall renders_distinct events →
  distinct_dependencies c →
  distinct_dependencies (DependencyManager.steps c events).
Proof.
  intros Hevents. revert c.
  induction Hevents as [|e events He _ IH]; intros c Hc; [done|].
  simpl. by apply IH, step_distinct.
Qed.

Lemma plan_distinct service existingDependencies selectedDependencies :
  NoDup existingDependencies →
  NoDup selectedDependencies →
  NoDup (plan service existingDependencies selectedDependencies).
Proof.
  intros Hex Hsel. unfold plan. apply NoDup_app. split; [|split].
  - apply NoDup_fmap_2_strong; [|by apply NoDup_filter].
    by intros ? ? _ _ [= ->].
  - intros c (? & -> & _)%list_elem_of_fmap
      (? & [=] & _)%list_elem_of_fmap.
  - apply NoDup_fmap_2_strong; [|by apply NoDup_filter].
    by intros ? ? _ _ [= ->].
Qed.

(** X17. When the backend reports no dependency twice, at the first
    render and at every later one, the dialog never holds an id twice,
    whatever the user toggles, and its submission issues no call
    twice, whatever the callbacks do. *)
Theorem no_call_twice service availableServices existingDependencies
    events onSuccess onClose (s : Server) :
  NoDup existingDependencies →
  Forall renders_distinct events →
  let c :=
    DependencyManager.steps
      (DependencyManager.mount service availableServices
         existingDependencies) events in
  NoDup (DependencyManager.selectedDependencies c)
  ∧ NoDup
      (calls
         (Async.log
            (DependencyManager.handleSubmit
               (DependencyManager.service c)
               (DependencyManager.existingDependencies c) client
               onSuccess onClose
               (DependencyManager.selectedDependencies c)
               (Async.mkWorld s [])).2)).
Proof.
  intros Hex Hevents c.
  destruct (steps_distinct events _ Hevents
              (mount_distinct service availableServices
                 existingDependencies Hex)) as [Hex' Hsel'].
  fold c in Hex', Hsel'. split; [done|].
  destruct (handleSubmit_calls_prefix client
              (DependencyManager.service c)
              (DependencyManager.existingDependencies c)
              onSuccess onClose
              (DependencyManager.selectedDependencies c) s) as [k Hk].
  pose proof (plan_distinct (DependencyManager.service c) _ _ Hex' Hsel')
    as Hplan.
  rewrite Hk in Hplan. by apply NoDup_app in Hplan as [? _].
Qed.

End DependencyManagerMore.

Lemma toggle_twice_witness :
  DependencyManager.toggleDependency (NumId 5)
    (DependencyManager.toggleDependency (NumId 5) [NumId 2; NumId 4])
  = [NumId 2; NumId 4]
  ∧ DependencyManager.toggleDependency (NumId 2)
      (DependencyManager.toggleDependency (NumId 2) [NumId 2; NumId 4])
    = filter (λ id, id ≠ NumId 2) [NumId 2; NumId 4] ++ [NumId 2].
Proof.
  split.
  - apply (proj1 (toggle_twice (NumId 5) [NumId 2; NumId 4])).
    apply (bool_decide_unpack (NumId 5 ∉ [NumId 2; NumId 4])).
    vm_compute. exact I.
  - apply (proj2 (toggle_twice (NumId 2) [NumId 2; NumId 4])).
    apply list_elem_of_here.
Defined.

Lemma submission_calls_are_the_changes_witness :
  (∃ target,
     Api.createDependency (NumId 1) (NumId 3) None
     = Api.deleteDependency (TopologyService.id Sample.api) target
     ∧ target ∈ [NumId 2; NumId 4]
     ∧ target ∉ [NumId 4; NumId 3; NumId 5])
  ∨ (∃ target,
       Api.createDependency (NumId 1) (NumId 3) None
       = Api.createDependency (TopologyService.id Sample.api) target None
       ∧ target ∈ [NumId 4; NumId 3; NumId 5]
       ∧ target ∉ [NumId 2; NumId 4]).
Proof.
  apply (submission_calls_are_the_changes Sample.backend Sample.api
           [NumId 2; NumId 4]
           TopologyMap.handleDependencyModalSuccess Returns
           [NumId 4; NumId 3; NumId 5] []
           (Api.createDependency (NumId 1) (NumId 3) None)).
  vm_compute. apply list_elem_of_further, list_elem_of_here.
Defined.

(** The same two ids in another order, with the callbacks [TopologyMap]
    passes. *)
Lemma unchanged_selection_issues_nothing_witness :
  let w' :=
    (DependencyManager.handleSubmit Sample.api [NumId 2; NumId 4]
       Sample.backend TopologyMap.handleDependencyModalSuccess Returns
       [NumId 4; NumId 2] Sample.world).2 in
  Async.server w' = Async.server Sample.world
  ∧ calls (added Sample.world w') = []
  ∧ added Sample.world w'
    = [PreventDefault; SetIsLoading true;
       SuccessToast "Dependencies updated successfully";
       OnSuccess;
       ConsoleError "Failed to update dependencies:"
         "ReferenceError: refetchTopology is not defined";
       ErrorToast "Failed to update dependencies. Please try again.";
       SetIsLoading false].
Proof.
  apply (unchanged_selection_issues_nothing Sample.backend Sample.api
           [NumId 2; NumId 4]
           TopologyMap.handleDependencyModalSuccess Returns
           [NumId 4; NumId 2] Sample.world).
  intros depId. rewrite !elem_of_cons, !elem_of_nil. tauto.
Defined.

Lemma no_call_twice_witness :
  let c :=
    DependencyManager.steps
      (DependencyManager.mount Sample.api
         [Sample.api; Sample.db; Sample.cache] [NumId 2])
      [DependencyManager.ToggleCheckbox 1;
       DependencyManager.ToggleCheckbox 0;
       DependencyManager.Render Sample.api
         [Sample.api; Sample.db; Sample.cache] [NumId 2; NumId 5];
       DependencyManager.ToggleCheckbox 0] in
  NoDup (DependencyManager.selectedDependencies c)
  ∧ NoDup
      (calls
         (Async.log
            (DependencyManager.handleSubmit
               (DependencyManager.service c)
               (DependencyManager.existingDependencies c) Sample.backend
               TopologyMap.handleDependencyModalSuccess Returns
               (DependencyManager.selectedDependencies c)
               (Async.mkWorld [] [])).2)).
Proof.
  apply (no_call_twice Sample.backend Sample.api
           [Sample.api; Sample.db; Sample.cache] [NumId 2]
           [DependencyManager.ToggleCheckbox 1;
            DependencyManager.ToggleCheckbox 0;
            DependencyManager.Render Sample.api
              [Sample.api; Sample.db; Sample.cache] [NumId 2; NumId 5];
            DependencyManager.ToggleCheckbox 0]
           TopologyMap.handleDependencyModalSuccess Returns
           []).
  - apply NoDup_singleton.
  - apply Forall_cons; split; [exact I|].
    apply Forall_cons; split; [exact I|].
    apply Forall_cons; split;
      [apply (bool_decide_unpack (NoDup [NumId 2; NumId 5]));
       vm_compute; exact I|].
    apply Forall_cons; split; [exact I|constructor].
Defined.

Lemma toggle_flips_membership_witness :
  NoDup (DependencyManager.toggleDependency (NumId 5) [NumId 2; NumId 4]).
Proof.
  apply (proj2 (toggle_flips_membership (NumId 5) [NumId 2; NumId 4])).
  apply (bool_decide_unpack (NoDup [NumId 2; NumId 4])).
  vm_compute. exact I.
Defined.

(* ================================================================== *)
(** * Further properties of [ServiceModal] *)
(* ================================================================== *)

Section ServiceModalMore.
Context {Server : Type}.
Variable client : Server → Api.HttpRequest → Server * Api.Outcome.

Lemma onChange_keeps_service field value formData :
  field ≠ ServiceModal.Field.service →
  FormData.service (ServiceModal.onChange field value formData)
  = FormData.service formData.
Proof. by destruct formData, field. Qed.

Lemma step_keeps_key c e :
  (∀ s, ServiceModal.props_service c = Some s →
        FormData.service (ServiceModal.formData c)
        = TopologyService.service s) →
  ∀ s, ServiceModal.props_service (ServiceModal.step c e) = Some s →
       FormData.service (ServiceModal.formData (ServiceModal.step c e))
       = TopologyService.service s.
Proof.
  intros Hinv s. destruct e as [[service|]|field value]; simpl.
  - by intros [= ->].
  - done.
  - destruct (ServiceModal.props_service c) as [shown|] eqn:Hshown.
    + destruct (decide (field = ServiceModal.Field.service)) as [->|Hf].
      * rewrite !bool_decide_true by eauto. cbn [andb].
        intros Hs. apply Hinv. congruence.
      * rewrite (bool_decide_false _ Hf). cbn [andb].
        cbn [ServiceModal.props_service ServiceModal.formData].
        intros Hs. rewrite onChange_keeps_service by done.
        apply Hinv. congruence.
    + rewrite (bool_decide_false (is_Some None)) by (by intros [? ?]).
      rewrite andb_false_r.
      cbn [ServiceModal.props_service]. intros Hs. congruence.
Qed.

(** X18. Editing cannot rename a service.  Whatever service the dialog
    was mounted with, whatever it is handed later and whatever the user
    types, while it shows a service the form carries that service's key,
    and its submission issues one call, whatever the callbacks do: the
    update of the service of that id. *)
Theorem edit_mode_keeps_key service0 events onSuccess onClose
    (w : @Async.World Server) s :
  let c := ServiceModal.steps (ServiceModal.mount service0) events in
  ServiceModal.props_service c = Some s →
  FormData.service (ServiceModal.formData c) = TopologyService.service s
  ∧ calls
      (added w
         (ServiceModal.handleSubmit client onSuccess onClose
            (ServiceModal.props_service c) (ServiceModal.formData c) w).2)
    = [Api.updateService (TopologyService.id s) (ServiceModal.formData c)].
Proof.
  intros c Hshown. split.
  - revert s Hshown. subst c. unfold ServiceModal.steps.
    assert (∀ s, ServiceModal.props_service (ServiceModal.mount service0)
                 = Some s →
                 FormData.service
                   (ServiceModal.formData (ServiceModal.mount service0))
                 = TopologyService.service s) as Hmount
      by (by intros s [= ->]).
    revert Hmount. generalize (ServiceModal.mount service0).
    induction events as [|e events IH]; intros c0 Hinv; [done|].
    simpl. apply IH. by apply step_keeps_key.
  - rewrite service_handleSubmit_by_outcome, Hshown.
    unfold added. cbn [snd Async.log submission]. rewrite drop_app_length.
    destruct (settle client _ _).2; [|done].
    by destruct onSuccess, onClose.
Qed.

Lemma or_else_not_empty value fallback :
  fallback ≠ "" → ServiceModal.or_else value fallback ≠ "".
Proof.
  intros Hf. unfold ServiceModal.or_else.
  destruct value as [v|]; [|done]. by case_bool_decide.
Qed.

Lemma step_keeps_environment_filled c e :
  blanks_environment e = false →
  FormData.environment (ServiceModal.formData c) ≠ "" →
  FormData.environment (ServiceModal.formData (ServiceModal.step c e))
  ≠ "".
Proof.
  intros He Hc. destruct e as [[service|]|field value]; simpl.
  - by apply or_else_not_empty.
  - done.
  - destruct (bool_decide (field = ServiceModal.Field.service)
              && bool_decide (is_Some (ServiceModal.props_service c)));
      [done|]. simpl.
    destruct (decide (field = ServiceModal.Field.environment)) as [->|Hf].
    + simpl in He. apply bool_decide_eq_false in He.
      by destruct (ServiceModal.formData c).
    + by rewrite onChange_keeps_environment.
Qed.

(** X19. Unless the user empties the environment input, the form never
    holds an empty environment: it starts as "production", and a service
    without environment, or with an empty one, is shown with
    "production". *)
Theorem environment_stays_filled service0 events :
  Forall (λ e, blanks_environment e = false) events →
  FormData.environment
    (ServiceModal.formData
       (ServiceModal.steps (ServiceModal.mount service0) events))
  ≠ "".
Proof.
  intros Hevents. unfold ServiceModal.steps.
  assert (FormData.environment
            (ServiceModal.formData (ServiceModal.mount service0)) ≠ "")
    as Hmount.
  { destruct service0 as [service|]; simpl; [|done].
    by apply or_else_not_empty. }
  revert Hmount. generalize (ServiceModal.mount service0).
  induction Hevents as [|e events He _ IH]; intros c Hc; [done|].
  simpl. by apply IH, step_keeps_environment_filled.
Qed.

(** X20. Typing into an input changes that input and no other: the
    other six keep their text, and no input changes its [required] or
    [disabled] attribute. *)
Theorem onChange_sets_one_input service field value formData :
  ServiceModal.inputs service
    (ServiceModal.onChange field value formData)
  = (λ i,
       if decide (ServiceModal.input_id i = field)
       then ServiceModal.mkInput field (Some value)
              (ServiceModal.required i) (ServiceModal.disabled i)
       else i)
    <$> ServiceModal.inputs service formData.
Proof. by destruct formData, field. Qed.

End ServiceModalMore.

Lemma edit_mode_keeps_key_witness :
  let c :=
    ServiceModal.steps (ServiceModal.mount None)
      [ServiceModal.ServiceProp (Some Sample.worker);
       ServiceModal.Change ServiceModal.Field.service "renamed";
       ServiceModal.Change ServiceModal.Field.team "core"] in
  FormData.service (ServiceModal.formData c)
  = TopologyService.service Sample.worker
  ∧ calls
      (added Sample.world
         (ServiceModal.handleSubmit Sample.backend Returns Returns
            (ServiceModal.props_service c) (ServiceModal.formData c)
            Sample.world).2)
    = [Api.updateService (TopologyService.id Sample.worker)
         (ServiceModal.formData c)].
Proof.
  apply (edit_mode_keeps_key Sample.backend None
           [ServiceModal.ServiceProp (Some Sample.worker);
            ServiceModal.Change ServiceModal.Field.service "renamed";
            ServiceModal.Change ServiceModal.Field.team "core"]
           Returns Returns Sample.world Sample.worker).
  reflexivity.
Defined.

Lemma environment_stays_filled_witness :
  FormData.environment
    (ServiceModal.formData
       (ServiceModal.steps (ServiceModal.mount None)
          [ServiceModal.ServiceProp (Some Sample.cache);
           ServiceModal.Change ServiceModal.Field.environment "qa";
           ServiceModal.Change ServiceModal.Field.slack ""]))
  ≠ "".
Proof.
  apply (environment_stays_filled None
           [ServiceModal.ServiceProp (Some Sample.cache);
            ServiceModal.Change ServiceModal.Field.environment "qa";
            ServiceModal.Change ServiceModal.Field.slack ""]).
  apply Forall_cons; split; [reflexivity|].
  apply Forall_cons; split; [reflexivity|].
  apply Forall_cons; split; [reflexivity|constructor].
Defined.

(* ================================================================== *)
(** * Properties of the reading wrappers *)
(* ================================================================== *)

Section ApiMore.

Lemma append_assoc (a b c : string) : (a +:+ b) +:+ c = a +:+ b +:+ c.
Proof.
  induction a as [|x a IH]; [done|].
  change (String x ((a +:+ b) +:+ c) = String x (a +:+ b +:+ c)).
  by f_equal.
Qed.

Lemma concat_cons_cons sep (a b : string) (rest : list string) :
  String.concat sep (a :: b :: rest)
  = a +:+ sep +:+ String.concat sep (b :: rest).
Proof. done. Qed.

(** X21. The query of [getTopology].  Its names come in the order
    provider_ids, services, environment, each at most once.  A list is
    sent whenever it is given, also when it is empty; the environment is
    sent only when it is given and not empty. *)
Theorem searchParams_names (params : option Api.TopologyParams) :
  let names := (Api.searchParams params).*1 in
  names `sublist_of` ["provider_ids"; "services"; "environment"]
  ∧ ("provider_ids" ∈ names ↔ is_Some (params ≫= Api.providerIds))
  ∧ ("services" ∈ names ↔ is_Some (params ≫= Api.services))
  ∧ ("environment" ∈ names
     ↔ ∃ environment,
         params ≫= Api.environment = Some environment
         ∧ environment ≠ "").
Proof.
  unfold Api.searchParams.
  destruct params as [[[p|] [s|] [e|]]|];
    cbn [mbind option_bind Api.providerIds Api.services Api.environment];
    try case_bool_decide; cbn [fmap list_fmap app fst];
    (split; [repeat constructor|]);
    rewrite ?elem_of_cons, ?elem_of_nil; unfold is_Some;
    repeat split; intros;
    repeat match goal with
           | H : _ ∨ _ |- _ => destruct H
           | H : ∃ _, _ |- _ => destruct H
           | H : _ ∧ _ |- _ => destruct H
           | H : False |- _ => destruct H
           end;
    try discriminate; try congruence; eauto 6.
Qed.

(** X22. [getTopology] joins a list with commas and nothing tells a comma
    of the join from a comma inside an element: asking for the one
    service "a,b" sends the same request as asking for the two services
    "a" and "b". *)
Theorem getTopology_cannot_tell_commas toString providerIds environment
    (a b : string) (rest : list string) :
  Api.getTopology toString
    (Some {| Api.providerIds := providerIds;
             Api.services := Some ((a +:+ "," +:+ b) :: rest);
             Api.environment := environment |})
  = Api.getTopology toString
      (Some {| Api.providerIds := providerIds;
               Api.services := Some (a :: b :: rest);
               Api.environment := environment |}).
Proof.
  unfold Api.getTopology, Api.searchParams. cbn [mbind option_bind
    Api.providerIds Api.services Api.environment].
  do 4 f_equal. f_equal. f_equal.
  rewrite concat_cons_cons.
  destruct rest as [|r rest]; [done|].
  rewrite (concat_cons_cons "," (a +:+ "," +:+ b)), (concat_cons_cons "," b).
  by rewrite !append_assoc.
Qed.

End ApiMore.
